(** * INSIGMAAI model adapters: endpoint normalisation and the rerank call

    A shallow embedding of the four adapter classes

    - [models/rerank/rerank.py]                 (INSIGMAAIRerankModel)
    - [models/text_embedding/text_embedding.py] (INSIGMAAITextEmbeddingModel)
    - [models/speech2text/speech2text.py]       (INSIGMAAISpeechToTextModel)
    - [models/tts/tts.py]                       (INSIGMAAITextToSpeechModel)

    Python strings are sequences of code points, dictionaries are finite
    maps, dictionary objects live in a store addressed by references, and
    a call either returns a value or raises an exception.  The HTTP
    transport ([requests.post]), the URL builder ([yarl.URL]) and the
    builtin [float()] are parameters of the rerank adapter. *)

From Stdlib Require Import PrimFloat Ascii String ZArith DecimalString.
From stdpp Require Import gmap strings list fin_maps.

Set Warnings "-register-all,-inexact-float".

(** ** Python values *)

Module Py.

(** A [str] is a sequence of Unicode code points. *)
Abbreviation char := N (only parsing).
Abbreviation str := (list N) (only parsing).

(** String literals of the source are written in UTF-8 and decoded here. *)
Fixpoint utf8_decode (bs : list N) : str :=
  match bs with
  | [] => []
  | b :: r =>
    if (b <? 128)%N then b :: utf8_decode r
    else if (b <? 224)%N then
      match r with
      | b1 :: r1 => ((b - 192) * 64 + (b1 - 128))%N :: utf8_decode r1
      | _ => [b]
      end
    else if (b <? 240)%N then
      match r with
      | b1 :: b2 :: r2 =>
        ((b - 224) * 4096 + (b1 - 128) * 64 + (b2 - 128))%N :: utf8_decode r2
      | _ => b :: r
      end
    else
      match r with
      | b1 :: b2 :: b3 :: r3 =>
        ((b - 240) * 262144 + (b1 - 128) * 4096 + (b2 - 128) * 64 + (b3 - 128))%N
          :: utf8_decode r3
      | _ => b :: r
      end
  end.

Definition lit (s : string) : str :=
  utf8_decode (map N_of_ascii (list_ascii_of_string s)).

(** [str.isspace] on one code point: the characters [str.strip()] removes. *)
Definition isspace (c : char) : bool :=
  ((9 <=? c) && (c <=? 13) || (28 <=? c) && (c <=? 32)
   || (c =? 133) || (c =? 160) || (c =? 5760)
   || (8192 <=? c) && (c <=? 8202)
   || (c =? 8232) || (c =? 8233) || (c =? 8239) || (c =? 8287)
   || (c =? 12288))%N.

Fixpoint lstrip_with (p : char → bool) (s : str) : str :=
  match s with
  | [] => []
  | c :: r => if p c then lstrip_with p r else s
  end.

Definition rstrip_with (p : char → bool) (s : str) : str :=
  reverse (lstrip_with p (reverse s)).

(** [s.strip()] *)
Definition strip (s : str) : str := rstrip_with isspace (lstrip_with isspace s).

(** [s.rstrip(chars)]: drops every trailing character that occurs in [chars]. *)
Definition rstrip (s chars : str) : str :=
  rstrip_with (λ c, bool_decide (c ∈ chars)) s.

(** [s.endswith(suffix)] *)
Definition endswith (s suffix : str) : bool :=
  bool_decide (drop (length s - length suffix) s = suffix).

(** [s.removesuffix(suffix)] *)
Definition removesuffix (s suffix : str) : str :=
  if endswith s suffix then take (length s - length suffix) s else s.

(** Decimal text of an integer, as [str(n)] and f-strings print it. *)
Definition str_of_int (z : Z) : str :=
  lit (NilZero.string_of_int (Z.to_int z)).

(** The values a credentials mapping holds. *)
Inductive value :=
  | VNone
  | VInt (z : Z)
  | VStr (s : str).

Global Instance value_eq_dec : EqDecision value.
Proof. solve_decision. Defined.

(** [f"{v}"] *)
Definition format (v : value) : str :=
  match v with
  | VNone => lit "None"
  | VInt z => str_of_int z
  | VStr s => s
  end.

(** ** Exceptions

    Every class below derives from [Exception]; an exception value is its
    class together with [str(e)]. *)
Inductive exc_class :=
  | Exception
  | KeyError
  | IndexError
  | AttributeError
  | TypeError
  | ValueError
  | ReferenceError
  | requests_RequestException
  | requests_HTTPError
  | requests_ConnectionError
  | requests_Timeout
  | requests_JSONDecodeError
  | httpx_HTTPStatusError
  | InvokeServerUnavailableError
  | CredentialsValidateFailedError.

Global Instance exc_class_eq_dec : EqDecision exc_class.
Proof. solve_decision. Defined.

Record exception := Exc { exc_type : exc_class; exc_str : str }.

(** [issubclass(c, d)] *)
Definition issubclass (c d : exc_class) : bool :=
  match d with
  | Exception => true
  | requests_RequestException =>
    match c with
    | requests_RequestException | requests_HTTPError | requests_ConnectionError
    | requests_Timeout | requests_JSONDecodeError => true
    | _ => false
    end
  | ValueError =>
    match c with
    | ValueError | requests_JSONDecodeError => true
    | _ => false
    end
  | _ => bool_decide (c = d)
  end.

Definition isinstance (e : exception) (cls : exc_class) : bool :=
  issubclass (exc_type e) cls.

(** [KeyError(key)] for a key without quotes or escapes: [str(e)] is the
    key's [repr]. *)
Definition KeyError_ (key : str) : exception :=
  Exc KeyError (lit "'" ++ key ++ lit "'").

Definition IndexError_ : exception :=
  Exc IndexError (lit "list index out of range").

Inductive result (A : Type) :=
  | Ok (a : A)
  | Raise (e : exception).
Arguments Ok {A} a.
Arguments Raise {A} e.

Global Instance result_ret : MRet result := λ A a, Ok a.
Global Instance result_bind : MBind result := λ A B k m,
  match m with
  | Ok a => k a
  | Raise e => Raise e
  end.

(** A computation with effects on a state [S] (the network, or the store of
    dictionary objects) that returns or raises. *)
Definition Eff (S A : Type) : Type := S → result A * S.

Global Instance Eff_ret {S} : MRet (Eff S) := λ A a s, (Ok a, s).
Global Instance Eff_bind {S} : MBind (Eff S) := λ A B k m s,
  match m s with
  | (Ok a, s') => k a s'
  | (Raise e, s') => (Raise e, s')
  end.

Definition lift {S A} (r : result A) : Eff S A := λ s, (r, s).

Definition raise {S A} (e : exception) : Eff S A := λ s, (Raise e, s).

(** [try: body  except cls as e: handler(e)] *)
Definition try_except {S A} (body : Eff S A) (cls : exc_class)
    (handler : exception → Eff S A) : Eff S A := λ s,
  match body s with
  | (Ok a, s') => (Ok a, s')
  | (Raise e, s') => if isinstance e cls then handler e s' else (Raise e, s')
  end.

(** [for x in l: acc = body(acc, x)] *)
Fixpoint for_each {A B} (l : list A) (acc : B) (body : B → A → result B)
    : result B :=
  match l with
  | [] => Ok acc
  | x :: r => acc' ← body acc x; for_each r acc' body
  end.

(** [l[i]] on a list, with Python's negative indices. *)
Definition list_getitem {A} (l : list A) (i : Z) : result A :=
  let n := Z.of_nat (length l) in
  let j := if (i <? 0)%Z then (i + n)%Z else i in
  if ((0 <=? j) && (j <? n))%Z then
    match l !! Z.to_nat j with
    | Some x => Ok x
    | None => Raise IndexError_
    end
  else Raise IndexError_.

(** [d[key]] and [d.get(key, default)] on a dictionary value. *)
Definition getitem (d : gmap str value) (key : str) : result value :=
  match d !! key with
  | Some v => Ok v
  | None => Raise (KeyError_ key)
  end.

Definition get (d : gmap str value) (key : str) (default : value) : value :=
  match d !! key with
  | Some v => v
  | None => default
  end.

(** Looking up a [str] method on a value: only a [str] has it. *)
Definition str_method (v : value) (name : str) : result str :=
  match v with
  | VStr s => Ok s
  | VInt _ =>
    Raise (Exc AttributeError
             (lit "'int' object has no attribute '" ++ name ++ lit "'"))
  | VNone =>
    Raise (Exc AttributeError
             (lit "'NoneType' object has no attribute '" ++ name ++ lit "'"))
  end.

(** *** Dictionary objects

    A [dict] is a mutable object: variables hold references into a store,
    and [d.copy()] allocates a new object. *)
Abbreviation ref := positive (only parsing).
Abbreviation store := (gmap positive (gmap str value)) (only parsing).

(** A reference always points to an object; the store lookup of a reference
    that was never allocated is reported as [ReferenceError]. *)
Definition dangling : exception := Exc ReferenceError (lit "no such object").

Definition dict_copy (d : ref) : Eff store ref := λ σ,
  match σ !! d with
  | Some m => let d' := fresh (dom σ) in (Ok d', <[d' := m]> σ)
  | None => (Raise dangling, σ)
  end.

Definition dict_getitem (d : ref) (key : str) : Eff store value := λ σ,
  match σ !! d with
  | Some m => (getitem m key, σ)
  | None => (Raise dangling, σ)
  end.

Definition dict_setitem (d : ref) (key : str) (v : value) : Eff store unit :=
  λ σ,
  match σ !! d with
  | Some m => (Ok (), <[d := <[key := v]> m]> σ)
  | None => (Raise dangling, σ)
  end.

End Py.

Import Py.

(** ** Endpoint normalisation

    The same expression occurs in all four adapters:
    [url.rstrip("/").removesuffix("/v1").removesuffix("/v1/")
        .removesuffix("/v1-openai").removesuffix("/v1-openai/")
        .removesuffix("/openai-v1").removesuffix("/openai-v1/")]. *)
Definition strip_version_suffix (url : str) : str :=
  let s := rstrip url (lit "/") in
  let s := removesuffix s (lit "/v1") in
  let s := removesuffix s (lit "/v1/") in
  let s := removesuffix s (lit "/v1-openai") in
  let s := removesuffix s (lit "/v1-openai/") in
  let s := removesuffix s (lit "/openai-v1") in
  removesuffix s (lit "/openai-v1/").

(** The six suffixes, in the order the chain removes them. *)
Definition version_suffixes : list str :=
  [lit "/v1"; lit "/v1/"; lit "/v1-openai"; lit "/v1-openai/";
   lit "/openai-v1"; lit "/openai-v1/"].

(** The chain applied to [credentials["endpoint_url"]], a dynamic value. *)
Definition normalized_base (endpoint_url : value) : result str :=
  s ← str_method endpoint_url (lit "rstrip"); Ok (strip_version_suffix s).

(** ** Embedding adapter *)
Module TextEmbedding.

Definition _get_compatible_credentials (credentials : ref) : Eff store ref :=
  credentials ← dict_copy credentials;
  original_url ← dict_getitem credentials (lit "endpoint_url");
  base_url ← lift (normalized_base original_url);
  dict_setitem credentials (lit "endpoint_url") (VStr (base_url ++ lit "/v1"));;
  mret credentials.

End TextEmbedding.

(** ** Speech-to-text adapter *)
Module Speech2Text.

Definition _standardize_endpoint_url (credentials : ref) : Eff store ref :=
  credentials ← dict_copy credentials;
  endpoint_url ← dict_getitem credentials (lit "endpoint_url");
  base_url ← lift (normalized_base endpoint_url);
  dict_setitem credentials (lit "endpoint_url") (VStr (base_url ++ lit "/v1"));;
  mret credentials.

End Speech2Text.

(** ** Text-to-speech adapter *)
Module TTS.

(** Here the URL is read from the caller's object and written to the copy. *)
Definition _standardize_endpoint_url (credentials : ref) : Eff store ref :=
  standardize_credentials ← dict_copy credentials;
  endpoint_url ← dict_getitem credentials (lit "endpoint_url");
  base_url ← lift (normalized_base endpoint_url);
  dict_setitem standardize_credentials (lit "endpoint_url")
    (VStr (base_url ++ lit "/v1"));;
  mret standardize_credentials.

End TTS.

(** ** Rerank adapter *)
Module Rerank.

(** [dify_plugin.entities.model.rerank] *)
Record RerankDocument := { index : Z; text : str; score : float }.
Record RerankResult := { model : str; docs : list RerankDocument }.

(** The request body before serialisation. *)
Inductive json_value :=
  | JInt (z : Z)
  | JStr (s : str)
  | JList (l : list json_value).

(** [json.dumps(data)]: the serialised text, kept symbolic. *)
Inductive json_text :=
  | dumps (data : list (str * json_value)).

(** The arguments of one [requests.post] call. *)
Record http_request := {
  url : str;
  headers : list (str * str);
  data : json_text;
  timeout : float
}.

(** The response body as the adapter reads it: [results] is a list of
    objects with the keys [index], [relevance_score] and, optionally,
    [document] (an object with the key [text]).  A key that the adapter
    subscripts may be absent; the lookup then raises [KeyError]. *)
Record document_json := { doc_text : option str }.
Record result_json := {
  res_index : option Z;
  res_document : option document_json;
  res_relevance_score : option float
}.
Record response_json := { results : option (list result_json) }.

(** [requests.Response]: status line, final URL, and what [.json()] gives. *)
Record Response := {
  status_code : Z;
  reason : str;
  response_url : str;
  json : result response_json
}.

(** [Response.raise_for_status()] of the requests library. *)
Definition raise_for_status (response : Response) : result unit :=
  let code := status_code response in
  if ((400 <=? code) && (code <? 500))%Z then
    Raise (Exc requests_HTTPError
             (str_of_int code ++ lit " Client Error: " ++ reason response
              ++ lit " for url: " ++ response_url response))
  else if ((500 <=? code) && (code <? 600))%Z then
    Raise (Exc requests_HTTPError
             (str_of_int code ++ lit " Server Error: " ++ reason response
              ++ lit " for url: " ++ response_url response))
  else Ok ().

(** [obj[key]] on a parsed JSON object. *)
Definition subscript {A} (field : option A) (key : str) : result A :=
  match field with
  | Some v => Ok v
  | None => Raise (KeyError_ key)
  end.

(** The query and the two documents [validate_credentials] sends. *)
Definition smoke_query : str := lit "中国的首都是哪里？".
Definition smoke_docs : list str :=
  [lit "北京市是中华人民共和国的首都，位于中国华北地区，是全国的政治、文化、国际交往和科技创新中心。北京拥有三千多年建城史，是一座历史悠久的古都。";
   lit "上海市是中国的经济、金融、贸易和航运中心，位于中国东部沿海，是重要的国际化大都市，但并非首都。"].

(** The network: the requests sent so far, oldest first. *)
Abbreviation network := (list http_request) (only parsing).

Section Adapter.

(** What the provider (through [requests.post]) answers to a request: a
    response, or an exception of the transport. *)
Variable provider : http_request → result Response.
(** [str(URL(base) / "v1" / "rerank")] of the yarl library. *)
Variable yarl_URL : str → list str → result str.
(** The builtin [float(v)]. *)
Variable py_float : value → result float.

Definition post (request : http_request) : Eff network Response :=
  λ sent, (provider request, sent ++ [request]).

(** The body of the loop over [results["results"]]. *)
Definition rerank_step (docs : list str) (score_threshold : option float)
    (rerank_documents : list RerankDocument) (res : result_json)
    : result (list RerankDocument) :=
  index ← subscript (res_index res) (lit "index");
  text ← match res_document res with
         | Some document => subscript (doc_text document) (lit "text")
         | None => list_getitem docs index
         end;
  score ← subscript (res_relevance_score res) (lit "relevance_score");
  let rerank_document := {| index := index; text := text; score := score |} in
  if match score_threshold with
     | None => true
     | Some score_threshold => PrimFloat.leb score_threshold score
     end
  then Ok (rerank_documents ++ [rerank_document])
  else Ok rerank_documents.

Definition _invoke (model : str) (credentials : gmap str value) (query : str)
    (docs : list str) (score_threshold : option float) (top_n : option Z)
    (user : option str) : Eff network RerankResult :=
  if bool_decide (length docs = 0) then mret {| model := model; docs := [] |}
  else
    let top_n := match top_n with None => 3%Z | Some n => n end in
    let model := strip model in
    endpoint_url ← lift (getitem credentials (lit "endpoint_url")
                         ≫= normalized_base);
    let headers :=
      [(lit "Authorization",
        lit "Bearer " ++ format (get credentials (lit "api_key") VNone));
       (lit "Content-Type", lit "application/json")] in
    let data :=
      [(lit "model", JStr model);
       (lit "query", JStr query);
       (lit "documents", JList (JStr <$> docs));
       (lit "top_n", JInt top_n)] in
    try_except
      (timeout ← lift (py_float (get credentials (lit "timeout") (VInt 12)));
       url ← lift (yarl_URL endpoint_url [lit "v1"; lit "rerank"]);
       response ← post {| url := url; headers := headers;
                          data := dumps data; timeout := timeout |};
       lift (raise_for_status response);;
       results ← lift (json response);
       entries ← lift (subscript (Rerank.results results) (lit "results"));
       rerank_documents ← lift (for_each entries [] (rerank_step docs score_threshold));
       mret {| model := model; docs := rerank_documents |})
      httpx_HTTPStatusError
      (λ e, raise (Exc InvokeServerUnavailableError (exc_str e))).

Definition validate_credentials (model : str) (credentials : gmap str value)
    : Eff network unit :=
  try_except
    (_invoke model credentials smoke_query smoke_docs (Some 0.8%float) None None;;
     mret ())
    Exception
    (λ ex, raise (Exc CredentialsValidateFailedError
                    (lit "凭证验证失败: " ++ exc_str ex))).

End Adapter.

End Rerank.

(** ** Vocabulary of the properties *)

(** A base URL without a trailing slash that ends in none of the six
    version suffixes. *)
Definition canonical (b : str) : Prop :=
  endswith b (lit "/") = false ∧
  Forall (λ suffix, endswith b suffix = false) version_suffixes.

(** The three credential normalisers of the OpenAI-compatible flavour. *)
Definition normalizers : list (ref → Eff store ref) :=
  [TextEmbedding._get_compatible_credentials;
   Speech2Text._standardize_endpoint_url;
   TTS._standardize_endpoint_url].

(** [i] is a position [docs[i]] accepts: Python counts negative positions
    from the end. *)
Definition in_range {A} (docs : list A) (i : Z) : Prop :=
  (- Z.of_nat (length docs) ≤ i < Z.of_nat (length docs))%Z.

(** The threshold test of the rerank loop. *)
Definition meets (score_threshold : option float) (score : float) : bool :=
  match score_threshold with
  | None => true
  | Some t => PrimFloat.leb t score
  end.

Definition entry_passes (score_threshold : option float)
    (res : Rerank.result_json) : bool :=
  match Rerank.res_relevance_score res with
  | Some score => meets score_threshold score
  | None => false
  end.

(** [emits docs res d]: the entry [res] of the response is complete and [d]
    is the document built from it, with the text of its [document] object
    when it has one and [docs[index]] otherwise. *)
Inductive emits (docs : list str)
    : Rerank.result_json → Rerank.RerankDocument → Prop :=
  | emits_document i t s :
    emits docs
      {| Rerank.res_index := Some i;
         Rerank.res_document := Some {| Rerank.doc_text := Some t |};
         Rerank.res_relevance_score := Some s |}
      {| Rerank.index := i; Rerank.text := t; Rerank.score := s |}
  | emits_fallback i t s :
    list_getitem docs i = Ok t →
    emits docs
      {| Rerank.res_index := Some i;
         Rerank.res_document := None;
         Rerank.res_relevance_score := Some s |}
      {| Rerank.index := i; Rerank.text := t; Rerank.score := s |}.

(** The request the rerank call sends once the endpoint [u], the target
    URL and the timeout are known. *)
Definition rerank_request (model : str) (credentials : gmap str value)
    (query : str) (docs : list str) (top_n : option Z)
    (target : str) (timeout : float) : Rerank.http_request :=
  {| Rerank.url := target;
     Rerank.headers :=
       [(lit "Authorization",
         lit "Bearer " ++ format (get credentials (lit "api_key") VNone));
        (lit "Content-Type", lit "application/json")];
     Rerank.data :=
       Rerank.dumps
         [(lit "model", Rerank.JStr (strip model));
          (lit "query", Rerank.JStr query);
          (lit "documents", Rerank.JList (Rerank.JStr <$> docs));
          (lit "top_n",
           Rerank.JInt match top_n with None => 3%Z | Some n => n end)];
     Rerank.timeout := timeout |}.

(** ** Concrete runs *)
Module Scenario.

Definition credentials : gmap str value :=
  <[lit "endpoint_url" := VStr (lit "https://api.example.com/v1-openai/")]>
    (<[lit "api_key" := VStr (lit "sk-test")]> ∅).

(** A URL builder that joins the segments with slashes. *)
Definition yarl_URL (base : str) (segments : list str) : result str :=
  Ok (foldl (λ u seg, u ++ lit "/" ++ seg) base segments).

(** A [float()] that knows the integer default. *)
Definition py_float (v : value) : result float :=
  match v with
  | VInt 12 => Ok 12%float
  | _ => Raise (Exc ValueError (lit "could not convert to float"))
  end.

Definition target : str := lit "https://api.example.com/v1/rerank".

(** A provider that answers every request with status 200 and [entries]. *)
Definition provider_ok (entries : list Rerank.result_json)
    (request : Rerank.http_request) : result Rerank.Response :=
  Ok {| Rerank.status_code := 200;
        Rerank.reason := lit "OK";
        Rerank.response_url := Rerank.url request;
        Rerank.json := Ok {| Rerank.results := Some entries |} |}.

(** A provider that answers every request with status 503. *)
Definition provider_503 (request : Rerank.http_request)
    : result Rerank.Response :=
  Ok {| Rerank.status_code := 503;
        Rerank.reason := lit "Service Unavailable";
        Rerank.response_url := Rerank.url request;
        Rerank.json :=
          Raise (Exc requests_JSONDecodeError
                   (lit "Expecting value: line 1 column 1 (char 0)")) |}.

(** A provider that cannot be reached. *)
Definition provider_down (request : Rerank.http_request)
    : result Rerank.Response :=
  Raise (Exc requests_ConnectionError (lit "Connection refused")).

(** The response of the scenario: document 1 scores 0.92, document 0
    scores 0.3, neither carries a [document] object. *)
Definition entries : list Rerank.result_json :=
  [{| Rerank.res_index := Some 1%Z; Rerank.res_document := None;
      Rerank.res_relevance_score := Some 0.92%float |};
   {| Rerank.res_index := Some 0%Z; Rerank.res_document := None;
      Rerank.res_relevance_score := Some 0.3%float |}].

Definition docs : list str := [lit "A"; lit "B"].


(** A store with one credentials object, at reference 1. *)
Definition store : gmap positive (gmap str value) := {[ 1%positive := credentials ]}.

End Scenario.

(** The [except httpx.HTTPStatusError] clause of the rerank call, on an
    outcome of the [try] block. *)
Definition except_status_error {A} (r : result A) : result A :=
  match r with
  | Ok a => Ok a
  | Raise e =>
    if isinstance e httpx_HTTPStatusError
    then Raise (Exc InvokeServerUnavailableError (exc_str e))
    else Raise e
  end.

(** What the rerank call does with a response: the [try] block after [post]. *)
Definition read_response (model : str) (docs : list str)
    (score_threshold : option float) (response : Rerank.Response)
    : result Rerank.RerankResult :=
  Rerank.raise_for_status response;;
  results ← Rerank.json response;
  entries ← Rerank.subscript (Rerank.results results) (lit "results");
  rerank_documents ←
    for_each entries [] (Rerank.rerank_step docs score_threshold);
  Ok {| Rerank.model := strip model; Rerank.docs := rerank_documents |}.

(** The three version suffixes without a trailing slash, in the order the
    chain removes them. *)
Definition slashless_suffixes : list str :=
  [lit "/v1"; lit "/v1-openai"; lit "/openai-v1"].

(** The inputs of the concrete rerank runs. *)
Module Run.

Definition model : str := lit " rerank-v1 ".
Definition query : str := lit "capital".
Definition endpoint : str := lit "https://api.example.com/v1-openai/".

(** The one request of a run with [Scenario.credentials] and [Scenario.docs]. *)
Definition request : Rerank.http_request :=
  rerank_request model Scenario.credentials query Scenario.docs None
    Scenario.target 12%float.

(** The response [Scenario.provider_ok entries] gives to [request]. *)
Definition response_ok (entries : list Rerank.result_json) : Rerank.Response :=
  {| Rerank.status_code := 200;
     Rerank.reason := lit "OK";
     Rerank.response_url := Rerank.url request;
     Rerank.json := Ok {| Rerank.results := Some entries |} |}.

(** The response [Scenario.provider_503] gives to [request]. *)
Definition response_503 : Rerank.Response :=
  {| Rerank.status_code := 503;
     Rerank.reason := lit "Service Unavailable";
     Rerank.response_url := Rerank.url request;
     Rerank.json :=
       Raise (Exc requests_JSONDecodeError
                (lit "Expecting value: line 1 column 1 (char 0)")) |}.

End Run.

(** ** The adapters that delegate to a base implementation

    The embedding, text-to-speech and speech-to-text adapters normalise
    the credentials and call the method they inherit.  The inherited
    methods belong to the host framework: they are parameters here, free to
    read and change the whole world they are given. *)
Module Delegation.

(** One call on the module's [logger]. *)
Inductive log_level := DEBUG | INFO | ERROR.
Record log_call := { level : log_level; message : str; exc_info : bool }.

(** What an adapter does to its surroundings, in order: calls on the
    logger, and [file.seek(offset)] on a file object of type [F]. *)
Inductive call (F : Type) :=
  | Log (record : log_call)
  | Seek (file : F) (offset : Z).
Arguments Log {F} record.
Arguments Seek {F} file offset.

(** The world of a call: the dictionary objects, the calls made so far
    (oldest first), and everything else ([W]: the network, the clock, the
    state of the base implementation). *)
Record world (F W : Type) := World {
  dicts : gmap positive (gmap str value);
  calls : list (call F);
  outside : W
}.
Arguments World {F W} dicts calls outside.
Arguments dicts {F W} w.
Arguments calls {F W} w.
Arguments outside {F W} w.

(** A computation on the dictionary objects, run in the world. *)
Definition on_dicts {F W A : Type} (c : Eff store A) : Eff (world F W) A := λ w,
  let '(r, σ) := c (dicts w) in (r, World σ (calls w) (outside w)).

Definition logger_call {F W : Type} (lv : log_level) (msg : str) (exc : bool)
    : Eff (world F W) unit := λ w,
  (Ok (),
   World (dicts w)
     (calls w ++ [Log {| level := lv; message := msg; exc_info := exc |}])
     (outside w)).

(** [try: body  except Exception as e: handler(e); raise] *)
Definition try_reraise {S A : Type} (body : Eff S A) (handler : exception → Eff S unit)
    : Eff S A := λ s,
  match body s with
  | (Ok a, s') => (Ok a, s')
  | (Raise e, s') =>
    match handler e s' with
    | (Ok _, s'') => (Raise e, s'')
    | (Raise e', s'') => (Raise e', s'')
    end
  end.

End Delegation.

Import Delegation.

(** [EmbeddingInputType] of the host framework. *)
Inductive EmbeddingInputType := DOCUMENT | QUERY.

Module INSIGMAAITextEmbeddingModel.
Section Adapter.

Context {F W : Type}.
(** [TextEmbeddingResult], built by the base implementation only. *)
Variable TextEmbeddingResult : Type.
(** [OAICompatEmbeddingModel._invoke] and [.validate_credentials]. *)
Variable super_invoke :
  str → ref → list str → option str → EmbeddingInputType →
  Eff (world F W) TextEmbeddingResult.
Variable super_validate_credentials : str → ref → Eff (world F W) unit.

Definition _invoke (model : str) (credentials : ref) (texts : list str)
    (user : option str) (input_type : EmbeddingInputType)
    : Eff (world F W) TextEmbeddingResult :=
  compatible_credentials ←
    on_dicts (TextEmbedding._get_compatible_credentials credentials);
  super_invoke model compatible_credentials texts user input_type.

Definition validate_credentials (model : str) (credentials : ref)
    : Eff (world F W) unit :=
  compatible_credentials ←
    on_dicts (TextEmbedding._get_compatible_credentials credentials);
  super_validate_credentials model compatible_credentials.

End Adapter.
End INSIGMAAITextEmbeddingModel.

Module INSIGMAAITextToSpeechModel.
Section Adapter.

Context {F W : Type}.
(** The audio stream or response object of the base implementation. *)
Variable Audio : Type.
(** [OAICompatText2SpeechModel._invoke] and [.validate_credentials]. *)
Variable super_invoke :
  str → str → ref → str → str → option str → Eff (world F W) Audio.
Variable super_validate_credentials : str → ref → Eff (world F W) unit.

Definition _invoke (model tenant_id : str) (credentials : ref)
    (content_text voice : str) (user : option str) : Eff (world F W) Audio :=
  let model := strip model in
  standardize_credentials ←
    on_dicts (TTS._standardize_endpoint_url credentials);
  super_invoke model tenant_id standardize_credentials content_text voice user.

Definition validate_credentials (model : str) (credentials : ref)
    (user : option str) : Eff (world F W) unit :=
  standardize_credentials ←
    on_dicts (TTS._standardize_endpoint_url credentials);
  super_validate_credentials model standardize_credentials.

End Adapter.
End INSIGMAAITextToSpeechModel.

Module INSIGMAAISpeechToTextModel.
Section Adapter.

Context {F W : Type}.
(** [type(file).__name__] *)
Variable type_name : F → str.
(** What [file.seek(offset)] does: it returns or raises. *)
Variable seek_outcome : F → Z → result unit.
(** [OAICompatSpeech2TextModel._invoke] and [.validate_credentials]. *)
Variable super_invoke : str → ref → F → Eff (world F W) str.
Variable super_validate_credentials : str → ref → Eff (world F W) unit.

Definition seek (file : F) (offset : Z) : Eff (world F W) unit := λ w,
  (seek_outcome file offset,
   World (dicts w) (calls w ++ [Seek file offset]) (outside w)).

(** [user or 'unknown'] *)
Definition user_or_unknown (user : option str) : str :=
  match user with
  | None | Some [] => lit "unknown"
  | Some u => u
  end.

Definition _invoke (model : str) (credentials : ref) (file : F)
    (user : option str) : Eff (world F W) str :=
  let model := strip model in
  logger_call INFO
    (lit "[Speech2Text._invoke] 开始调用模型: " ++ model
     ++ lit ", 用户: " ++ user_or_unknown user
     ++ lit ", 文件对象类型: " ++ type_name file) false;;
  try_reraise
    (seek file 0;;
     compatible_credentials ←
       on_dicts (Speech2Text._standardize_endpoint_url credentials);
     endpoint ← on_dicts (dict_getitem compatible_credentials (lit "endpoint_url"));
     logger_call DEBUG
       (lit "[Speech2Text._invoke] 使用标准化 endpoint: " ++ format endpoint)
       false;;
     result ← super_invoke model compatible_credentials file;
     logger_call INFO
       (lit "[Speech2Text._invoke] 模型调用成功，返回文本长度: "
        ++ str_of_int (Z.of_nat (length result))) false;;
     mret result)
    (λ e,
       logger_call ERROR
         (lit "[Speech2Text._invoke] 模型调用失败，模型: " ++ model
          ++ lit ", 错误: " ++ exc_str e) true).

Definition validate_credentials (model : str) (credentials : ref)
    : Eff (world F W) unit :=
  logger_call INFO
    (lit "[Speech2Text.validate_credentials] 开始验证凭证，模型: " ++ model)
    false;;
  try_reraise
    (compatible_credentials ←
       on_dicts (Speech2Text._standardize_endpoint_url credentials);
     endpoint ← on_dicts (dict_getitem compatible_credentials (lit "endpoint_url"));
     logger_call DEBUG
       (lit "[Speech2Text.validate_credentials] 标准化 endpoint: "
        ++ format endpoint) false;;
     super_validate_credentials model compatible_credentials;;
     logger_call INFO
       (lit "[Speech2Text.validate_credentials] 凭证验证成功: " ++ model) false)
    (λ e,
       logger_call ERROR
         (lit "[Speech2Text.validate_credentials] 凭证验证失败，模型: " ++ model
          ++ lit ", 错误: " ++ exc_str e) true).

End Adapter.
End INSIGMAAISpeechToTextModel.

(** The world after a normaliser has put its copy [d'] of the caller's
    mapping into the store. *)
Definition with_copy {F W : Type} (w : world F W) (d' : gmap str value)
    : world F W :=
  World (<[fresh (dom (dicts w)) := d']> (dicts w)) (calls w) (outside w).

(** The world after one more call on the logger. *)
Definition with_log {F W : Type} (w : world F W) (lv : log_level)
    (msg : str) (exc : bool) : world F W :=
  World (dicts w)
    (calls w ++ [Log {| level := lv; message := msg; exc_info := exc |}])
    (outside w).

(** The world after [file.seek(offset)]. *)
Definition with_seek {F W : Type} (w : world F W) (file : F) (offset : Z)
    : world F W :=
  World (dicts w) (calls w ++ [Seek file offset]) (outside w).

(** Concrete worlds and base implementations for the delegating adapters. *)
Module Example.

(** A world with the one credentials object of [Scenario.store], no call
    made yet, and files named by numbers. *)
Definition world0 : world nat unit := World Scenario.store [] ().

(** A world whose one credentials object has no [endpoint_url]. *)
Definition world_without_endpoint : world nat unit :=
  World {[ 1%positive := (∅ : gmap str value) ]} [] ().

(** A base synthesis that answers with the length of the text. *)
Definition tts_base (model tenant_id : str) (credentials : positive)
    (content_text voice : str) (user : option str) : Eff (world nat unit) nat :=
  λ w, (Ok (length content_text), w).

(** A base transcription that answers with a fixed text. *)
Definition stt_base (model : str) (credentials : positive) (file : nat)
    : Eff (world nat unit) str :=
  λ w, (Ok (lit "hello"), w).

(** A base transcription that fails. *)
Definition stt_base_failing (model : str) (credentials : positive) (file : nat)
    : Eff (world nat unit) str :=
  λ w, (Raise (Exc requests_Timeout (lit "Read timed out")), w).

(** A base validation that accepts. *)
Definition validate_base (model : str) (credentials : positive)
    : Eff (world nat unit) unit :=
  λ w, (Ok (), w).

Definition type_name (file : nat) : str := lit "BytesIO".

(** Files that can be rewound, and files that are closed. *)
Definition seek_ok (file : nat) (offset : Z) : result unit := Ok ().
Definition seek_closed (file : nat) (offset : Z) : result unit :=
  Raise (Exc ValueError (lit "I/O operation on closed file.")).

End Example.

(** * Properties *)

(** C4: with [docs = []] the rerank call returns a result carrying the
    given model and no documents, whatever the model, query, credentials
    and other arguments are, and the network is left as it was: no request
    is sent and the provider is never consulted. *)
Theorem invoke_empty_docs
    (provider : Rerank.http_request → result Rerank.Response)
    (yarl_URL : str → list str → result str)
    (py_float : value → result float)
    (model : str) (credentials : gmap str value) (query : str)
    (score_threshold : option float) (top_n : option Z) (user : option str)
    (sent : list Rerank.http_request) :
  Rerank._invoke provider yarl_URL py_float
    model credentials query [] score_threshold top_n user sent
  = (Ok {| Rerank.model := model; Rerank.docs := [] |}, sent).
Proof. reflexivity. Qed.

(** ** Strings *)

Section Strings.
Implicit Types s b suffix : str.

Lemma endswith_suffix s suffix : endswith s suffix = true ↔ suffix `suffix_of` s.
Proof.
  unfold endswith. rewrite bool_decide_eq_true. split.
  - intros <-. apply suffix_drop.
  - intros [k ->]. rewrite length_app.
    replace (length k + length suffix - length suffix) with (length k) by lia.
    by rewrite drop_app_length.
Qed.

Lemma endswith_false s suffix : endswith s suffix = false ↔ ¬ suffix `suffix_of` s.
Proof. rewrite <- endswith_suffix. by destruct (endswith s suffix). Qed.

Lemma removesuffix_app b suffix : removesuffix (b ++ suffix) suffix = b.
Proof.
  unfold removesuffix.
  assert (endswith (b ++ suffix) suffix = true) as ->
    by (apply endswith_suffix; by exists b).
  rewrite length_app.
  replace (length b + length suffix - length suffix) with (length b) by lia.
  by rewrite take_app_length.
Qed.

Lemma removesuffix_none s suffix : endswith s suffix = false → removesuffix s suffix = s.
Proof. unfold removesuffix. by intros ->. Qed.

Lemma removesuffix_prefix s suffix : removesuffix s suffix `prefix_of` s.
Proof.
  unfold removesuffix. destruct (endswith s suffix); [apply prefix_take | done].
Qed.

Lemma rstrip_with_snoc p s c :
  rstrip_with p (s ++ [c]) = if p c then rstrip_with p s else s ++ [c].
Proof.
  unfold rstrip_with. rewrite reverse_app.
  change (reverse [c] ++ reverse s) with (c :: reverse s).
  change (lstrip_with p (c :: reverse s))
    with (if p c then lstrip_with p (reverse s) else c :: reverse s).
  destruct (p c); [done|]. by rewrite reverse_cons, reverse_involutive.
Qed.

Lemma rstrip_with_prefix p s : rstrip_with p s `prefix_of` s.
Proof.
  induction s as [|c s IH] using rev_ind; [done|].
  rewrite rstrip_with_snoc. destruct (p c); [|done].
  by apply prefix_app_r.
Qed.

Lemma rstrip_with_app_keep p b v c :
  last v = Some c → p c = false → rstrip_with p (b ++ v) = b ++ v.
Proof.
  intros Hl Hp. destruct v as [|x v] using rev_ind; [done|].
  rewrite last_snoc in Hl. simplify_eq.
  by rewrite app_assoc, rstrip_with_snoc, Hp.
Qed.

Lemma rstrip_with_id p s :
  (∀ c, last s = Some c → p c = false) → rstrip_with p s = s.
Proof.
  intros H. destruct s as [|c s _] using rev_ind; [done|].
  rewrite rstrip_with_snoc, H; [done|]. by rewrite last_snoc.
Qed.

Lemma endswith_char_last s c : endswith s [c] = false ↔ last s ≠ Some c.
Proof.
  rewrite endswith_false. split.
  - intros H Hl. apply H. apply last_Some in Hl as [k ->]. by exists k.
  - intros H [k ->]. by rewrite last_snoc in H.
Qed.

Lemma endswith_snoc_false s suffix c :
  endswith s [c] = false → endswith s (suffix ++ [c]) = false.
Proof.
  rewrite !endswith_false. intros H Hs. apply H.
  by eapply suffix_app_l.
Qed.

End Strings.

(** ** The suffix chain *)

(** Evaluate the literals of a goal. *)
Ltac eval_lits :=
  repeat match goal with
  | |- context [lit ?s] =>
    let v := eval vm_compute in (lit s) in change (lit s) with v
  | H : context [lit ?s] |- _ =>
    let v := eval vm_compute in (lit s) in change (lit s) with v in H
  end.

(** [b ++ v] does not end with [suffix] when the two concrete tails differ. *)
Ltac tail_mismatch :=
  apply endswith_false; intros [k Hk];
  apply (f_equal reverse) in Hk; rewrite !reverse_app in Hk;
  eval_lits; cbn in Hk; discriminate Hk.

Section Normalise.
Implicit Types s b u : str.

Lemma canonical_elim b :
  canonical b →
  endswith b (lit "/") = false ∧ endswith b (lit "/v1") = false ∧
  endswith b (lit "/v1/") = false ∧ endswith b (lit "/v1-openai") = false ∧
  endswith b (lit "/v1-openai/") = false ∧ endswith b (lit "/openai-v1") = false ∧
  endswith b (lit "/openai-v1/") = false.
Proof.
  intros [H0 H]. unfold version_suffixes in H.
  repeat (apply Forall_cons in H as [? H]). tauto.
Qed.

Lemma rstrip_canonical b : endswith b (lit "/") = false → rstrip b (lit "/") = b.
Proof.
  intros H. apply rstrip_with_id. intros c Hc.
  apply bool_decide_eq_false. intros Hin.
  change (lit "/") with [47%N] in *. apply list_elem_of_singleton in Hin as ->.
  by apply endswith_char_last in H.
Qed.

Lemma strip_version_suffix_canonical b :
  canonical b → strip_version_suffix b = b.
Proof.
  intros (H0 & H1 & H2 & H3 & H4 & H5 & H6)%canonical_elim.
  cbv beta zeta delta [strip_version_suffix].
  rewrite rstrip_canonical by done.
  by rewrite !(removesuffix_none b) by done.
Qed.


(** One recognised suffix after a canonical base is removed, and nothing else. *)
Lemma strip_version_suffix_variant b suffix :
  canonical b → suffix ∈ version_suffixes →
  strip_version_suffix (b ++ suffix) = b.
Proof.
  intros (H0 & H1 & H2 & H3 & H4 & H5 & H6)%canonical_elim Hin.
  cbv beta zeta delta [strip_version_suffix]. unfold version_suffixes in Hin.
  assert (∀ v, rstrip (b ++ v ++ lit "/") (lit "/") = rstrip (b ++ v) (lit "/"))
    as Hslash.
  { intros v. unfold rstrip. change (lit "/") with [47%N].
    by rewrite !app_assoc, rstrip_with_snoc. }
  assert (rstrip (b ++ lit "/v1") (lit "/") = b ++ lit "/v1") as R1
    by (by eapply rstrip_with_app_keep).
  assert (rstrip (b ++ lit "/v1-openai") (lit "/") = b ++ lit "/v1-openai") as R2
    by (by eapply rstrip_with_app_keep).
  assert (rstrip (b ++ lit "/openai-v1") (lit "/") = b ++ lit "/openai-v1") as R3
    by (by eapply rstrip_with_app_keep).
  assert (strip_tail1 : removesuffix (b ++ lit "/v1") (lit "/v1") = b)
    by apply removesuffix_app.
  repeat (apply elem_of_cons in Hin as [->|Hin]); [..|by apply elem_of_nil in Hin].
  - rewrite R1, removesuffix_app. by rewrite !(removesuffix_none b) by done.
  - change (lit "/v1/") with (lit "/v1" ++ lit "/") at 1.
    rewrite Hslash, R1, removesuffix_app. by rewrite !(removesuffix_none b) by done.
  - rewrite R2.
    rewrite (removesuffix_none _ (lit "/v1")) by tail_mismatch.
    rewrite (removesuffix_none _ (lit "/v1/")) by tail_mismatch.
    rewrite removesuffix_app. by rewrite !(removesuffix_none b) by done.
  - change (lit "/v1-openai/") with (lit "/v1-openai" ++ lit "/") at 1.
    rewrite Hslash, R2.
    rewrite (removesuffix_none _ (lit "/v1")) by tail_mismatch.
    rewrite (removesuffix_none _ (lit "/v1/")) by tail_mismatch.
    rewrite removesuffix_app. by rewrite !(removesuffix_none b) by done.
  - rewrite R3.
    rewrite (removesuffix_none _ (lit "/v1")) by tail_mismatch.
    rewrite (removesuffix_none _ (lit "/v1/")) by tail_mismatch.
    rewrite (removesuffix_none _ (lit "/v1-openai")) by tail_mismatch.
    rewrite (removesuffix_none _ (lit "/v1-openai/")) by tail_mismatch.
    rewrite removesuffix_app. by rewrite !(removesuffix_none b) by done.
  - change (lit "/openai-v1/") with (lit "/openai-v1" ++ lit "/") at 1.
    rewrite Hslash, R3.
    rewrite (removesuffix_none _ (lit "/v1")) by tail_mismatch.
    rewrite (removesuffix_none _ (lit "/v1/")) by tail_mismatch.
    rewrite (removesuffix_none _ (lit "/v1-openai")) by tail_mismatch.
    rewrite (removesuffix_none _ (lit "/v1-openai/")) by tail_mismatch.
    rewrite removesuffix_app. by rewrite !(removesuffix_none b) by done.
Qed.

End Normalise.

Section Fixed.
Implicit Types s b u : str.

Lemma prefix_same_length (l1 l2 : list N) :
  l1 `prefix_of` l2 → length l2 ≤ length l1 → l1 = l2.
Proof. apply prefix_length_eq. Qed.

Lemma removesuffix_fixed s suffix :
  suffix ≠ [] → removesuffix s suffix = s → endswith s suffix = false.
Proof.
  intros Hne. unfold removesuffix.
  destruct (endswith s suffix) eqn:E; [|done].
  intros Ht. apply endswith_suffix in E as [k ->].
  apply (f_equal length) in Ht. rewrite length_take, length_app in Ht.
  destruct suffix; [done|]. cbn in Ht. lia.
Qed.

Lemma rstrip_with_fixed p s c :
  rstrip_with p s = s → last s = Some c → p c = false.
Proof.
  intros Hs Hl. apply last_Some in Hl as [k ->].
  rewrite rstrip_with_snoc in Hs. destruct (p c); [|done].
  pose proof (prefix_length _ _ (rstrip_with_prefix p k)) as Hlen.
  rewrite Hs, length_app in Hlen. cbn in Hlen. lia.
Qed.

Lemma rstrip_fixed s : rstrip s (lit "/") = s → endswith s (lit "/") = false.
Proof.
  intros Hs. change (lit "/") with [47%N] in *.
  apply endswith_char_last. intros Hl.
  pose proof (rstrip_with_fixed _ _ _ Hs Hl) as Hp.
  apply bool_decide_eq_false in Hp. apply Hp. by apply list_elem_of_singleton.
Qed.

(** The chain only ever shortens its input. *)
Lemma strip_version_suffix_prefix u : strip_version_suffix u `prefix_of` u.
Proof.
  cbv beta zeta delta [strip_version_suffix].
  repeat (etrans; [apply removesuffix_prefix|]). apply rstrip_with_prefix.
Qed.

(** The fixed points of the chain are the canonical bases. *)
Lemma strip_version_suffix_fixed s :
  strip_version_suffix s = s ↔ canonical s.
Proof.
  split; [|apply strip_version_suffix_canonical].
  cbv beta zeta delta [strip_version_suffix]. intros H.
  set (s0 := rstrip s (lit "/")) in *.
  set (s1 := removesuffix s0 (lit "/v1")) in *.
  set (s2 := removesuffix s1 (lit "/v1/")) in *.
  set (s3 := removesuffix s2 (lit "/v1-openai")) in *.
  set (s4 := removesuffix s3 (lit "/v1-openai/")) in *.
  set (s5 := removesuffix s4 (lit "/openai-v1")) in *.
  assert (s0 `prefix_of` s) as P0 by apply rstrip_with_prefix.
  assert (s1 `prefix_of` s0) as P1 by apply removesuffix_prefix.
  assert (s2 `prefix_of` s1) as P2 by apply removesuffix_prefix.
  assert (s3 `prefix_of` s2) as P3 by apply removesuffix_prefix.
  assert (s4 `prefix_of` s3) as P4 by apply removesuffix_prefix.
  assert (s5 `prefix_of` s4) as P5 by apply removesuffix_prefix.
  assert (removesuffix s5 (lit "/openai-v1/") `prefix_of` s5) as P6
    by apply removesuffix_prefix.
  rewrite H in P6.
  pose proof (prefix_length _ _ P0). pose proof (prefix_length _ _ P1).
  pose proof (prefix_length _ _ P2). pose proof (prefix_length _ _ P3).
  pose proof (prefix_length _ _ P4). pose proof (prefix_length _ _ P5).
  pose proof (prefix_length _ _ P6).
  assert (s0 = s) as E0 by (apply prefix_same_length; [done|lia]).
  assert (s1 = s0) as E1 by (apply prefix_same_length; [done|lia]).
  assert (s2 = s1) as E2 by (apply prefix_same_length; [done|lia]).
  assert (s3 = s2) as E3 by (apply prefix_same_length; [done|lia]).
  assert (s4 = s3) as E4 by (apply prefix_same_length; [done|lia]).
  assert (s5 = s4) as E5 by (apply prefix_same_length; [done|lia]).
  rewrite E5 in H. rewrite E4 in H, E5. rewrite E3 in H, E5, E4.
  rewrite E2 in H, E5, E4, E3. rewrite E1 in H, E5, E4, E3, E2.
  rewrite E0 in H, E5, E4, E3, E2, E1.
  unfold s5 in E5; rewrite E4 in E5. unfold s4 in E4; rewrite E3 in E4.
  unfold s3 in E3; rewrite E2 in E3. unfold s2 in E2; rewrite E1 in E2.
  unfold s1 in E1; rewrite E0 in E1. unfold s0 in E0.
  clear P0 P1 P2 P3 P4 P5 P6 H0 H1 H2 H3 H4 H5 H6. clear s5 s4 s3 s2 s1 s0.
  split; [by apply rstrip_fixed|].
  unfold version_suffixes.
  repeat (apply Forall_cons; split; [by apply removesuffix_fixed|]).
  apply Forall_nil_2.
Qed.

Lemma strip_version_suffix_v1 b :
  canonical b → strip_version_suffix (b ++ lit "/v1") = b.
Proof.
  intros Hb. apply strip_version_suffix_variant; [done|].
  unfold version_suffixes. apply elem_of_cons. by left.
Qed.

End Fixed.

(** ** The credential normalisers on the store *)

Section Store.
Implicit Types (σ : gmap positive (gmap str value)) (d : gmap str value) (l : positive).

Lemma fresh_ref_unused σ : σ !! fresh (dom σ) = None.
Proof. apply not_elem_of_dom, is_fresh. Qed.

Lemma fresh_ref_ne σ l d : σ !! l = Some d → fresh (dom σ) ≠ l.
Proof. intros H E. rewrite <- E, fresh_ref_unused in H. discriminate H. Qed.

Lemma elem_of_normalizers
    (P : (positive → Eff (gmap positive (gmap str value)) positive) → Prop) :
  P TextEmbedding._get_compatible_credentials →
  P Speech2Text._standardize_endpoint_url →
  P TTS._standardize_endpoint_url →
  ∀ f, f ∈ normalizers → P f.
Proof.
  intros H1 H2 H3 f Hf. unfold normalizers in Hf.
  apply elem_of_cons in Hf as [->|Hf]; [exact H1|].
  apply elem_of_cons in Hf as [->|Hf]; [exact H2|].
  apply elem_of_cons in Hf as [->|Hf]; [exact H3|].
  by apply elem_of_nil in Hf.
Qed.

(** Unfolding a normaliser down to store lookups, without computing. *)
Ltac unfold_normalizer :=
  unfold TextEmbedding._get_compatible_credentials,
    Speech2Text._standardize_endpoint_url, TTS._standardize_endpoint_url,
    dict_copy, dict_getitem, dict_setitem, lift, getitem, normalized_base,
    str_method, mbind, mret, Eff_bind, Eff_ret, result_bind;
  cbv beta iota zeta.

(** The three normalisers are one function: reading the URL from the copy
    or from the caller's object makes no difference. *)
Lemma normalizer_cases f σ l :
  f ∈ normalizers →
  f l σ =
    match σ !! l with
    | None => (Raise dangling, σ)
    | Some d =>
      match d !! lit "endpoint_url" with
      | None => (Raise (KeyError_ (lit "endpoint_url")), <[fresh (dom σ) := d]> σ)
      | Some v =>
        match str_method v (lit "rstrip") with
        | Raise e => (Raise e, <[fresh (dom σ) := d]> σ)
        | Ok u =>
          (Ok (fresh (dom σ)),
           <[fresh (dom σ) :=
               <[lit "endpoint_url" := VStr (strip_version_suffix u ++ lit "/v1")]> d]> σ)
        end
      end
    end.
Proof.
  revert f.
  apply (elem_of_normalizers (λ f, f l σ = _)); unfold_normalizer.
  - destruct (σ !! l) as [d|] eqn:Hl; [|reflexivity].
    rewrite lookup_insert_eq. cbv beta iota.
    destruct (d !! lit "endpoint_url") as [[| |u]|]; try reflexivity.
    rewrite lookup_insert_eq. cbv beta iota. by rewrite insert_insert_eq.
  - destruct (σ !! l) as [d|] eqn:Hl; [|reflexivity].
    rewrite lookup_insert_eq. cbv beta iota.
    destruct (d !! lit "endpoint_url") as [[| |u]|]; try reflexivity.
    rewrite lookup_insert_eq. cbv beta iota. by rewrite insert_insert_eq.
  - destruct (σ !! l) as [d|] eqn:Hl; [|reflexivity].
    rewrite lookup_insert_ne by (by eapply fresh_ref_ne). rewrite Hl.
    cbv beta iota.
    destruct (d !! lit "endpoint_url") as [[| |u]|]; try reflexivity.
    rewrite lookup_insert_eq. cbv beta iota. by rewrite insert_insert_eq.
Qed.

(** On credentials with a string endpoint every normaliser returns a fresh
    object: the caller's mapping with [endpoint_url] replaced. *)
Lemma normalizer_run f σ l d u :
  f ∈ normalizers → σ !! l = Some d →
  d !! lit "endpoint_url" = Some (VStr u) →
  f l σ =
    (Ok (fresh (dom σ)),
     <[fresh (dom σ) :=
         <[lit "endpoint_url" := VStr (strip_version_suffix u ++ lit "/v1")]> d]> σ).
Proof.
  intros Hf Hl Hu. rewrite (normalizer_cases f σ l Hf), Hl, Hu. reflexivity.
Qed.

(** Whatever a normaliser does, returning or raising, the objects that
    existed before the call are the same afterwards. *)
Lemma normalizer_frame f σ l r σ' :
  f ∈ normalizers → f l σ = (r, σ') → σ ⊆ σ'.
Proof.
  intros Hf Hrun. rewrite (normalizer_cases f σ l Hf) in Hrun.
  assert (∀ m, σ ⊆ <[fresh (dom σ) := m]> σ) as Hsub
    by (intros m; apply insert_subseteq, fresh_ref_unused).
  pose proof (f_equal snd Hrun) as Hσ. clear Hrun.
  destruct (σ !! l) as [d|]; [|cbn [snd] in Hσ; by subst σ'].
  destruct (d !! lit "endpoint_url") as [v|]; [|cbn [snd] in Hσ; by subst σ'].
  destruct (str_method v (lit "rstrip")); cbn [snd] in Hσ; by subst σ'.
Qed.

End Store.

(** ** The rerank loop *)

Section Loop.
Implicit Types (docs : list str) (entries : list Rerank.result_json)
  (acc : list Rerank.RerankDocument).

Lemma list_getitem_in_range {A} (l : list A) i :
  in_range l i → ∃ x, list_getitem l i = Ok x.
Proof.
  unfold in_range, list_getitem. intros Hi.
  set (j := if (i <? 0)%Z then (i + Z.of_nat (length l))%Z else i).
  assert (0 ≤ j < Z.of_nat (length l))%Z as Hj
    by (subst j; destruct (Z.ltb_spec i 0); lia).
  assert ((0 <=? j) && (j <? Z.of_nat (length l)) = true)%Z as ->
    by (apply andb_true_intro; split; [apply Z.leb_le|apply Z.ltb_lt]; lia).
  destruct (l !! Z.to_nat j) as [x|] eqn:E; [by exists x|].
  apply lookup_ge_None in E. lia.
Qed.




(** A non-negative index in range reads that position, a negative one
    counts from the end. *)
Lemma list_getitem_nonneg {A} (l : list A) (n : nat) x :
  l !! n = Some x → list_getitem l (Z.of_nat n) = Ok x.
Proof.
  intros Hn. pose proof (lookup_lt_Some _ _ _ Hn) as Hlt.
  unfold list_getitem.
  assert ((Z.of_nat n <? 0)%Z = false) as -> by (apply Z.ltb_ge; lia).
  assert ((0 <=? Z.of_nat n) && (Z.of_nat n <? Z.of_nat (length l)) = true)%Z
    as -> by (apply andb_true_intro; split; [apply Z.leb_le|apply Z.ltb_lt]; lia).
  by rewrite Nat2Z.id, Hn.
Qed.

Lemma list_getitem_negative {A} (l : list A) (k : nat) x :
  l !! (length l - S k) = Some x → k < length l →
  list_getitem l (- Z.of_nat (S k)) = Ok x.
Proof.
  intros Hn Hk. unfold list_getitem.
  assert ((- Z.of_nat (S k) <? 0)%Z = true) as -> by (apply Z.ltb_lt; lia).
  assert ((- Z.of_nat (S k) + Z.of_nat (length l))%Z
          = Z.of_nat (length l - S k)) as -> by lia.
  assert ((0 <=? Z.of_nat (length l - S k))
          && (Z.of_nat (length l - S k) <? Z.of_nat (length l)) = true)%Z
    as -> by (apply andb_true_intro; split; [apply Z.leb_le|apply Z.ltb_lt]; lia).
  by rewrite Nat2Z.id, Hn.
Qed.

(** Unfolding one round of the loop without computing the literals. *)
Ltac unfold_step :=
  unfold Rerank.rerank_step, Rerank.subscript, mbind, result_bind;
  cbn [Rerank.res_index Rerank.res_document Rerank.res_relevance_score
       Rerank.doc_text];
  cbv beta iota zeta.

Lemma rerank_step_emits docs th acc res d :
  emits docs res d →
  Rerank.rerank_step docs th acc res
  = Ok (if entry_passes th res then acc ++ [d] else acc).
Proof.
  intros [i t s|i t s Ht]; unfold entry_passes, meets; unfold_step.
  - by destruct th as [x|]; [destruct (PrimFloat.leb x s)|].
  - rewrite Ht. cbv beta iota.
    by destruct th as [x|]; [destruct (PrimFloat.leb x s)|].
Qed.


(** The loop over complete entries keeps, in order, those that pass. *)
Lemma for_each_emits docs th entries acc :
  Forall (λ res, ∃ d, emits docs res d) entries →
  ∃ ds, for_each entries acc (Rerank.rerank_step docs th) = Ok (acc ++ ds) ∧
        Forall2 (emits docs) (List.filter (entry_passes th) entries) ds.
Proof.
  intros H. revert acc. induction H as [|res entries [d Hd] _ IH]; intros acc.
  - exists []. by rewrite app_nil_r.
  - cbn [for_each List.filter]. rewrite (rerank_step_emits _ _ _ _ _ Hd).
    cbn [mbind result_bind].
    destruct (entry_passes th res).
    + destruct (IH (acc ++ [d])) as (ds & -> & Hds).
      exists (d :: ds). rewrite <- app_assoc. split; [done|by constructor].
    + destruct (IH acc) as (ds & -> & Hds). by exists ds.
Qed.



(** The loop stops at the first entry that is not complete, with that
    entry's exception; what was collected so far is dropped. *)
Lemma for_each_first_failure docs th pre res post acc e :
  Forall (λ res, ∃ d, emits docs res d) pre →
  (∀ acc', Rerank.rerank_step docs th acc' res = Raise e) →
  for_each (pre ++ res :: post) acc (Rerank.rerank_step docs th) = Raise e.
Proof.
  intros Hpre Hres. revert acc.
  induction Hpre as [|res0 pre [d Hd] _ IH]; intros acc.
  - cbn [app for_each]. by rewrite Hres.
  - cbn [app for_each]. rewrite (rerank_step_emits _ _ _ _ _ Hd).
    cbn [mbind result_bind]. apply IH.
Qed.

End Loop.

(** ** The rerank call *)

Section RerankCall.
Context (provider : Rerank.http_request → result Rerank.Response)
        (yarl_URL : str → list str → result str)
        (py_float : value → result float).
Implicit Types (model query u target : str) (docs : list str)
  (credentials : gmap str value) (sent : list Rerank.http_request).

Lemma invoke_empty_eq model credentials query score_threshold top_n user sent :
  Rerank._invoke provider yarl_URL py_float
    model credentials query [] score_threshold top_n user sent
  = (Ok {| Rerank.model := model; Rerank.docs := [] |}, sent).
Proof. reflexivity. Qed.

(** The call with documents to rank, step by step: the endpoint is read
    and stripped, then, inside the [try] block, the timeout and the target
    URL are computed, one request is sent and the response is read. *)
Lemma invoke_nonempty model credentials query docs score_threshold top_n user
    sent :
  docs ≠ [] →
  Rerank._invoke provider yarl_URL py_float
    model credentials query docs score_threshold top_n user sent
  = match credentials !! lit "endpoint_url" with
    | None => (Raise (KeyError_ (lit "endpoint_url")), sent)
    | Some v =>
      match str_method v (lit "rstrip") with
      | Raise e => (Raise e, sent)
      | Ok u =>
        match py_float (get credentials (lit "timeout") (VInt 12)) with
        | Raise e => (except_status_error (Raise e), sent)
        | Ok t =>
          match yarl_URL (strip_version_suffix u) [lit "v1"; lit "rerank"] with
          | Raise e => (except_status_error (Raise e), sent)
          | Ok target =>
            (except_status_error
               (provider (rerank_request model credentials query docs top_n
                            target t)
                ≫= read_response model docs score_threshold),
             sent ++ [rerank_request model credentials query docs top_n
                        target t])
          end
        end
      end
    end.
Proof.
  intros Hdocs. destruct docs as [|doc docs]; [done|].
  unfold Rerank._invoke.
  cbn [length]. rewrite (bool_decide_eq_false_2 (S (length docs) = 0)) by lia.
  unfold Rerank.post, try_except, lift, raise, getitem, normalized_base,
    except_status_error, read_response, mbind, mret, Eff_bind, Eff_ret,
    result_bind.
  destruct (credentials !! lit "endpoint_url") as [v|]; [|reflexivity].
  destruct (str_method v (lit "rstrip")) as [u|e]; [|reflexivity].
  cbv beta iota.
  destruct (py_float _) as [t|e]; cbv beta iota;
    [|by destruct (isinstance e _)].
  destruct (yarl_URL _ _) as [target|e]; cbv beta iota;
    [|by destruct (isinstance e _)].
  fold (rerank_request model credentials query (doc :: docs) top_n target t).
  destruct (provider _) as [response|e]; [|by destruct (isinstance e _)].
  destruct (Rerank.raise_for_status response) as [[]|e];
    [|by destruct (isinstance e _)].
  destruct (Rerank.json response) as [results|e];
    [|by destruct (isinstance e _)].
  destruct (Rerank.subscript _ _) as [entries|e];
    [|by destruct (isinstance e _)].
  destruct (for_each _ _ _) as [ds|e]; [done|by destruct (isinstance e _)].
Qed.

(** With a string endpoint, a timeout and a target URL exactly one request
    is sent, and the outcome is that of the response seen through the
    [except] clause. *)
Lemma invoke_sends model credentials query docs score_threshold top_n user sent
    u t target :
  docs ≠ [] →
  credentials !! lit "endpoint_url" = Some (VStr u) →
  py_float (get credentials (lit "timeout") (VInt 12)) = Ok t →
  yarl_URL (strip_version_suffix u) [lit "v1"; lit "rerank"] = Ok target →
  Rerank._invoke provider yarl_URL py_float
    model credentials query docs score_threshold top_n user sent
  = (except_status_error
       (provider (rerank_request model credentials query docs top_n target t)
        ≫= read_response model docs score_threshold),
     sent ++ [rerank_request model credentials query docs top_n target t]).
Proof.
  intros Hdocs Hu Ht Hy. rewrite invoke_nonempty by done.
  rewrite Hu. cbn [str_method]. by rewrite Ht, Hy.
Qed.

(** An exception that is no [httpx.HTTPStatusError] passes the clause. *)
Lemma except_status_error_other {A} (e : exception) :
  exc_type e ≠ httpx_HTTPStatusError →
  except_status_error (A := A) (Raise e) = Raise e.
Proof.
  intros He. unfold except_status_error, isinstance, issubclass.
  by rewrite bool_decide_eq_false_2.
Qed.

(** Nothing that leaves the clause is an [httpx.HTTPStatusError]. *)
Lemma except_status_error_class {A} (r : result A) e :
  except_status_error r = Raise e → exc_type e ≠ httpx_HTTPStatusError.
Proof.
  destruct r as [a|e0]; [discriminate|].
  unfold except_status_error, isinstance, issubclass.
  case_bool_decide as He; intros [= <-]; [discriminate|done].
Qed.

End RerankCall.

(** ** Properties of the endpoint normalisation *)

Lemma canonical_example : canonical (lit "https://api.example.com").
Proof.
  split; [by vm_compute|]. unfold version_suffixes.
  repeat (constructor; [by vm_compute|]). constructor.
Qed.

Lemma rstrip_slashes (u : str) (n : nat) :
  rstrip (u ++ replicate n 47%N) (lit "/") = rstrip u (lit "/").
Proof.
  induction n as [|n IH]; [by rewrite app_nil_r|].
  rewrite replicate_S_end, app_assoc. unfold rstrip in *.
  rewrite rstrip_with_snoc. change (lit "/") with [47%N] in *.
  by rewrite bool_decide_eq_true_2 by apply list_elem_of_here.
Qed.

(** X1: the suffix chain only ever drops a tail of the URL: its result is a
    prefix of the input, so scheme, host and leading path are never
    rewritten, and the result is never longer than the input. *)
Theorem strip_version_suffix_is_prefix (u : str) :
  strip_version_suffix u `prefix_of` u ∧
  length (strip_version_suffix u) ≤ length u.
Proof.
  split; [apply strip_version_suffix_prefix|].
  apply prefix_length, strip_version_suffix_prefix.
Qed.

(** X2: any number of trailing slashes is ignored: a URL followed by [n]
    slashes is stripped to the same base as the URL itself. *)
Theorem strip_version_suffix_trailing_slashes (u : str) (n : nat) :
  strip_version_suffix (u ++ replicate n 47%N) = strip_version_suffix u.
Proof.
  cbv beta zeta delta [strip_version_suffix]. by rewrite rstrip_slashes.
Qed.

(** X3: the URLs the chain leaves unchanged are exactly the canonical
    bases: those with no trailing slash and none of the six suffixes. *)
Theorem strip_version_suffix_fixed_points (s : str) :
  strip_version_suffix s = s ↔ canonical s.
Proof. apply strip_version_suffix_fixed. Qed.

(** X4: after a canonical base, each of the six suffix variants is removed
    and nothing else: the rerank flavour yields the base, and each
    credential normaliser yields the base followed by [/v1], for the bare
    base as for the base with a suffix. *)
Theorem normalization_suffix_variants (b suffix : str) :
  canonical b → suffix ∈ version_suffixes →
  (strip_version_suffix (b ++ suffix) = b ∧ strip_version_suffix b = b) ∧
  (∀ f (σ : gmap positive (gmap str value)) l d u,
     f ∈ normalizers → σ !! l = Some d →
     d !! lit "endpoint_url" = Some (VStr u) → u = b ∨ u = b ++ suffix →
     ∃ l' σ', f l σ = (Ok l', σ') ∧
       σ' !! l' = Some (<[lit "endpoint_url" := VStr (b ++ lit "/v1")]> d)).
Proof.
  intros Hb Hs.
  pose proof (strip_version_suffix_variant b suffix Hb Hs) as Hv.
  pose proof (strip_version_suffix_canonical b Hb) as Hc.
  split; [done|].
  intros f σ l d u Hf Hl Hd Hu. eexists _, _.
  split; [by apply normalizer_run|]. rewrite lookup_insert_eq.
  by destruct Hu as [-> | ->]; rewrite ?Hv, ?Hc.
Qed.

Lemma normalization_suffix_variants_witness :
  strip_version_suffix (lit "https://api.example.com" ++ lit "/v1-openai/")
  = lit "https://api.example.com".
Proof.
  refine (proj1 (proj1 (normalization_suffix_variants
                          (lit "https://api.example.com") (lit "/v1-openai/")
                          canonical_example _))).
  unfold version_suffixes. do 3 apply list_elem_of_further.
  apply list_elem_of_here.
Defined.

(** One step of the chain on a concrete tail: the suffix is the tail, or
    the tails differ, or the string is a canonical base. *)
Ltac chain_step :=
  match goal with
  | |- context [removesuffix (?x ++ ?s) ?s] => rewrite (removesuffix_app x s)
  | |- context [removesuffix (?x ++ ?y) ?s] =>
    rewrite (removesuffix_none (x ++ y) s) by tail_mismatch
  | H : endswith ?b ?s = false |- context [removesuffix ?b ?s] =>
    rewrite (removesuffix_none b s H)
  end.

Lemma strip_version_suffix_stacked_cases (b : str) :
  canonical b →
  strip_version_suffix (b ++ lit "/v1" ++ lit "/v1") = b ++ lit "/v1" ∧
  strip_version_suffix (b ++ lit "/v1" ++ lit "/v1-openai") = b ++ lit "/v1" ∧
  strip_version_suffix (b ++ lit "/v1" ++ lit "/openai-v1") = b ++ lit "/v1" ∧
  strip_version_suffix (b ++ lit "/v1-openai" ++ lit "/v1") = b ∧
  strip_version_suffix (b ++ lit "/v1-openai" ++ lit "/v1-openai")
    = b ++ lit "/v1-openai" ∧
  strip_version_suffix (b ++ lit "/v1-openai" ++ lit "/openai-v1")
    = b ++ lit "/v1-openai" ∧
  strip_version_suffix (b ++ lit "/openai-v1" ++ lit "/v1") = b ∧
  strip_version_suffix (b ++ lit "/openai-v1" ++ lit "/v1-openai") = b ∧
  strip_version_suffix (b ++ lit "/openai-v1" ++ lit "/openai-v1")
    = b ++ lit "/openai-v1".
Proof.
  intros (H0 & H1 & H2 & H3 & H4 & H5 & H6)%canonical_elim.
  cbv beta zeta delta [strip_version_suffix].
  assert (∀ s v c, last v = Some c → (c =? 47)%N = false →
            rstrip (s ++ v) (lit "/") = s ++ v) as Hkeep.
  { intros s v c Hl Hc%N.eqb_neq. eapply rstrip_with_app_keep; [done|].
    apply bool_decide_eq_false. change (lit "/") with [47%N].
    by intros ->%list_elem_of_singleton. }
  repeat split; rewrite app_assoc;
    first [ rewrite (Hkeep _ _ 49%N) by (vm_compute; reflexivity)
          | rewrite (Hkeep _ _ 105%N) by (vm_compute; reflexivity) ];
    repeat chain_step; reflexivity.
Qed.

(** X5: stacked suffixes are removed in chain order only.  After a
    canonical base followed by two slashless suffixes, the outer suffix is
    always removed; the inner one is removed in the same pass exactly when
    the outer one comes strictly earlier in the chain. *)
Theorem strip_version_suffix_stacked (b inner outer : str) (i j : nat) :
  canonical b →
  slashless_suffixes !! i = Some inner →
  slashless_suffixes !! j = Some outer →
  strip_version_suffix (b ++ inner ++ outer)
  = if bool_decide (j < i) then b else b ++ inner.
Proof.
  intros Hb Hi Hj.
  destruct (strip_version_suffix_stacked_cases b Hb)
    as (C00 & C01 & C02 & C10 & C11 & C12 & C20 & C21 & C22).
  unfold slashless_suffixes in *.
  destruct i as [|[|[|i]]]; cbn [lookup list_lookup] in Hi;
    [| | |discriminate Hi]; injection Hi as <-;
  (destruct j as [|[|[|j]]]; cbn [lookup list_lookup] in Hj;
    [| | |discriminate Hj]; injection Hj as <-);
  first [ rewrite bool_decide_eq_true_2 by lia
        | rewrite bool_decide_eq_false_2 by lia ];
  assumption.
Qed.

Lemma strip_version_suffix_stacked_witness :
  strip_version_suffix
    (lit "https://api.example.com" ++ lit "/v1" ++ lit "/v1")
  = if bool_decide (0 < 0) then lit "https://api.example.com"
    else lit "https://api.example.com" ++ lit "/v1".
Proof.
  exact (strip_version_suffix_stacked (lit "https://api.example.com")
           (lit "/v1") (lit "/v1") 0 0 canonical_example eq_refl eq_refl).
Defined.

Lemma canonical_example_output :
  canonical (strip_version_suffix (lit "https://api.example.com/v1-openai/")).
Proof.
  split; [by vm_compute|]. unfold version_suffixes.
  repeat (constructor; [by vm_compute|]). constructor.
Qed.

(** X6: normalising twice.  The rerank-flavour strip returns its own output
    unchanged exactly when that output is a canonical base; and when it
    is, every credential normaliser applied to the mapping another
    normaliser returned yields a mapping equal to the one it was given. *)
Theorem normalization_idempotent_iff_canonical (u : str) :
  (strip_version_suffix (strip_version_suffix u) = strip_version_suffix u
   ↔ canonical (strip_version_suffix u)) ∧
  (canonical (strip_version_suffix u) →
   ∀ f g (σ : gmap positive (gmap str value)) l d,
     f ∈ normalizers → g ∈ normalizers → σ !! l = Some d →
     d !! lit "endpoint_url" = Some (VStr u) →
     ∃ l1 σ1 d1, f l σ = (Ok l1, σ1) ∧ σ1 !! l1 = Some d1 ∧
       d1 !! lit "endpoint_url"
         = Some (VStr (strip_version_suffix u ++ lit "/v1")) ∧
       ∃ l2 σ2, g l1 σ1 = (Ok l2, σ2) ∧ σ2 !! l2 = Some d1).
Proof.
  split; [apply strip_version_suffix_fixed|].
  intros Hc f g σ l d Hf Hg Hl Hd.
  eexists _, _, _. split; [by apply normalizer_run|].
  split; [apply lookup_insert_eq|]. split; [apply lookup_insert_eq|].
  eexists _, _. split.
  - eapply (normalizer_run g); [done|apply lookup_insert_eq..].
  - rewrite lookup_insert_eq, (strip_version_suffix_v1 _ Hc).
    by rewrite insert_insert_eq.
Qed.

Lemma normalization_idempotent_iff_canonical_witness :
  ∃ l1 σ1 d1,
    TextEmbedding._get_compatible_credentials 1%positive Scenario.store
      = (Ok l1, σ1) ∧ σ1 !! l1 = Some d1 ∧
    d1 !! lit "endpoint_url"
      = Some (VStr (strip_version_suffix (lit "https://api.example.com/v1-openai/")
                    ++ lit "/v1")) ∧
    ∃ l2 σ2, TTS._standardize_endpoint_url l1 σ1 = (Ok l2, σ2) ∧ σ2 !! l2 = Some d1.
Proof.
  refine (proj2 (normalization_idempotent_iff_canonical
                   (lit "https://api.example.com/v1-openai/"))
            canonical_example_output
            TextEmbedding._get_compatible_credentials
            TTS._standardize_endpoint_url
            Scenario.store 1%positive Scenario.credentials _ _ _ _).
  - apply list_elem_of_here.
  - do 2 apply list_elem_of_further. apply list_elem_of_here.
  - apply lookup_singleton_eq.
  - apply lookup_insert_eq.
Defined.

(** X7: a second pass can strip more.  For every canonical base [b], the
    URL [b/v1/v1] is stripped to [b/v1] and that output is stripped to [b];
    and a credential normaliser turns the endpoint [b/v1-openai/v1-openai]
    into [b/v1-openai/v1], and its own output into [b/v1]. *)
Theorem normalization_second_pass_strips_more (b : str) :
  canonical b →
  (strip_version_suffix (b ++ lit "/v1" ++ lit "/v1") = b ++ lit "/v1" ∧
   strip_version_suffix (b ++ lit "/v1") = b ∧
   b ++ lit "/v1" ≠ b) ∧
  (∀ f (σ : gmap positive (gmap str value)) l d,
     f ∈ normalizers → σ !! l = Some d →
     d !! lit "endpoint_url"
       = Some (VStr (b ++ lit "/v1-openai" ++ lit "/v1-openai")) →
     ∃ l1 σ1 d1 l2 σ2 d2,
       f l σ = (Ok l1, σ1) ∧ σ1 !! l1 = Some d1 ∧
       d1 !! lit "endpoint_url"
         = Some (VStr ((b ++ lit "/v1-openai") ++ lit "/v1")) ∧
       f l1 σ1 = (Ok l2, σ2) ∧ σ2 !! l2 = Some d2 ∧
       d2 !! lit "endpoint_url" = Some (VStr (b ++ lit "/v1"))).
Proof.
  intros Hb.
  destruct (strip_version_suffix_stacked_cases b Hb)
    as (C00 & _ & _ & C10 & C11 & _).
  split.
  { split; [done|]. split; [by apply strip_version_suffix_v1|].
    intros E. apply (f_equal length) in E. rewrite length_app in E.
    vm_compute (length (lit "/v1")) in E. lia. }
  intros f σ l d Hf Hl Hd.
  eexists _, _, _, _, _, _.
  split; [by apply normalizer_run|].
  split; [apply lookup_insert_eq|].
  split; [rewrite lookup_insert_eq; by rewrite C11|].
  split; [eapply (normalizer_run f); [done|apply lookup_insert_eq..]|].
  split; [apply lookup_insert_eq|].
  rewrite lookup_insert_eq. rewrite C11.
  rewrite <- (app_assoc b (lit "/v1-openai") (lit "/v1")). by rewrite C10.
Qed.

Lemma normalization_second_pass_strips_more_witness :
  strip_version_suffix (lit "https://api.example.com" ++ lit "/v1" ++ lit "/v1")
    = lit "https://api.example.com" ++ lit "/v1" ∧
  strip_version_suffix (lit "https://api.example.com" ++ lit "/v1")
    = lit "https://api.example.com" ∧
  lit "https://api.example.com" ++ lit "/v1" ≠ lit "https://api.example.com".
Proof.
  exact (proj1 (normalization_second_pass_strips_more
                  (lit "https://api.example.com") canonical_example)).
Defined.

(** ** Properties of the credential normalisers *)

(** X8: no credential normaliser mutates the caller's mapping.  Whether the
    call returns or raises, the caller's object and every other object of
    the store are unchanged; when [endpoint_url] is a string, the call
    returns a new object that equals the caller's mapping on every key
    except [endpoint_url], which holds the stripped base followed by
    [/v1]. *)
Theorem normalizers_leave_caller_mapping
    (f : positive → Eff (gmap positive (gmap str value)) positive)
    (σ σ' : gmap positive (gmap str value)) (l : positive)
    (d : gmap str value) (r : result positive) :
  f ∈ normalizers → σ !! l = Some d → f l σ = (r, σ') →
  σ' !! l = Some d ∧
  (∀ l0 d0, σ !! l0 = Some d0 → σ' !! l0 = Some d0) ∧
  (∀ u, d !! lit "endpoint_url" = Some (VStr u) →
     ∃ l' d', r = Ok l' ∧ l' ≠ l ∧ σ !! l' = None ∧ σ' !! l' = Some d' ∧
       d' = <[lit "endpoint_url" := VStr (strip_version_suffix u ++ lit "/v1")]> d ∧
       ∀ key, key ≠ lit "endpoint_url" → d' !! key = d !! key).
Proof.
  intros Hf Hl Hrun.
  pose proof (normalizer_frame f σ l r σ' Hf Hrun) as Hsub.
  assert (∀ l0 d0, σ !! l0 = Some d0 → σ' !! l0 = Some d0) as Hframe.
  { intros l0 d0 H0. exact (lookup_weaken σ σ' l0 d0 H0 Hsub). }
  split; [exact (Hframe l d Hl)|]. split; [exact Hframe|].
  intros u Hu. rewrite (normalizer_run f σ l d u Hf Hl Hu) in Hrun.
  pose proof (f_equal fst Hrun) as Hr. pose proof (f_equal snd Hrun) as Hσ.
  cbn [fst snd] in Hr, Hσ. subst r σ'. clear Hrun.
  eexists _, _. split; [reflexivity|].
  split; [exact (fresh_ref_ne σ l d Hl)|]. split; [apply fresh_ref_unused|].
  split; [apply lookup_insert_eq|]. split; [reflexivity|].
  intros key Hkey. apply lookup_insert_ne. congruence.
Qed.

Lemma normalizers_leave_caller_mapping_witness :
  (TTS._standardize_endpoint_url 1%positive Scenario.store).2 !! 1%positive
  = Some Scenario.credentials.
Proof.
  refine (proj1 (normalizers_leave_caller_mapping TTS._standardize_endpoint_url
                   Scenario.store _ 1%positive Scenario.credentials
                   (TTS._standardize_endpoint_url 1%positive Scenario.store).1
                   _ _ _)).
  - do 2 apply list_elem_of_further. apply list_elem_of_here.
  - apply lookup_singleton_eq.
  - apply surjective_pairing.
Defined.

(** X9: the three normalisers are the same function.  On every store and
    reference the embedding, speech-to-text and text-to-speech normalisers
    give the same outcome and the same store, although the text-to-speech
    one reads the URL from the caller's object and the others from the
    copy. *)
Theorem normalizers_agree
    (f g : positive → Eff (gmap positive (gmap str value)) positive)
    (σ : gmap positive (gmap str value)) (l : positive) :
  f ∈ normalizers → g ∈ normalizers → f l σ = g l σ.
Proof.
  intros Hf Hg.
  by rewrite (normalizer_cases f σ l Hf), (normalizer_cases g σ l Hg).
Qed.

Lemma normalizers_agree_witness :
  TextEmbedding._get_compatible_credentials 1%positive Scenario.store
  = TTS._standardize_endpoint_url 1%positive Scenario.store.
Proof.
  refine (normalizers_agree _ _ Scenario.store 1%positive _ _).
  - apply list_elem_of_here.
  - do 2 apply list_elem_of_further. apply list_elem_of_here.
Defined.

(** X10: credentials without a usable [endpoint_url].  When the key is
    missing every normaliser raises [KeyError('endpoint_url')]; when it
    holds [None] or an integer, [AttributeError] for [rstrip].  In both
    cases the copy has already been made: the store gains one object, an
    exact duplicate of the caller's mapping, and nothing else changes. *)
Theorem normalizers_without_endpoint
    (f : positive → Eff (gmap positive (gmap str value)) positive)
    (σ : gmap positive (gmap str value)) (l : positive) (d : gmap str value) :
  f ∈ normalizers → σ !! l = Some d →
  (d !! lit "endpoint_url" = None →
   f l σ = (Raise (KeyError_ (lit "endpoint_url")), <[fresh (dom σ) := d]> σ)) ∧
  (∀ v, d !! lit "endpoint_url" = Some v → (∀ u, v ≠ VStr u) →
     ∃ e, f l σ = (Raise e, <[fresh (dom σ) := d]> σ) ∧
          exc_type e = AttributeError) ∧
  σ !! fresh (dom σ) = None.
Proof.
  intros Hf Hl. rewrite (normalizer_cases f σ l Hf), Hl.
  split; [by intros ->|]. split; [|apply fresh_ref_unused].
  intros v -> Hv. destruct v as [|z|u]; [by eexists..|].
  by destruct (Hv u).
Qed.

Lemma normalizers_without_endpoint_witness :
  Speech2Text._standardize_endpoint_url 1%positive
    {[ 1%positive := (∅ : gmap str value) ]}
  = (Raise (KeyError_ (lit "endpoint_url")),
     <[fresh (dom ({[ 1%positive := (∅ : gmap str value) ]}
                     : gmap positive (gmap str value))) := ∅]>
       {[ 1%positive := (∅ : gmap str value) ]}).
Proof.
  refine (proj1 (normalizers_without_endpoint
                   Speech2Text._standardize_endpoint_url
                   {[ 1%positive := (∅ : gmap str value) ]} 1%positive ∅ _ _) _).
  - apply list_elem_of_further, list_elem_of_here.
  - apply lookup_singleton_eq.
  - apply lookup_empty.
Defined.

(** ** Properties of the rerank call *)

Lemma filter_passes_all docs (entries : list Rerank.result_json) :
  Forall (λ res, ∃ d, emits docs res d) entries →
  List.filter (entry_passes None) entries = entries.
Proof.
  induction 1 as [|res entries [d Hd] _ IH]; [done|].
  cbn [List.filter]. destruct Hd; cbn; by rewrite IH.
Qed.

Lemma emits_score docs th (es : list Rerank.result_json)
    (ds : list Rerank.RerankDocument) :
  Forall2 (emits docs) (List.filter (entry_passes th) es) ds →
  Forall (λ d, meets th (Rerank.score d) = true) ds.
Proof.
  intros H.
  assert (Forall (λ res, entry_passes th res = true)
            (List.filter (entry_passes th) es)) as Hall.
  { apply List.Forall_forall. intros res Hin.
    by apply List.filter_In in Hin as [_ ?]. }
  induction H as [|res d es' ds' Hd _ IH]; [constructor|].
  apply Forall_cons in Hall as [Hres Hall].
  constructor; [|by apply IH].
  destruct Hd; exact Hres.
Qed.

(** X11: the result of a successful rerank call.  When the response carries
    complete entries (an index, a score, and either a [document] with a
    text or an index that [docs] accepts), the call sends one request and
    returns the trimmed model with exactly the entries that pass the
    threshold test, in the order of the response, each with its own index
    and score and with the text of its [document] or else [docs[index]].
    Without a threshold every entry is returned; with one, every returned
    score is at least the threshold. *)
Theorem invoke_returns_filtered_results
    (provider : Rerank.http_request → result Rerank.Response)
    (yarl_URL : str → list str → result str)
    (py_float : value → result float)
    (model : str) (credentials : gmap str value) (query : str)
    (docs : list str) (score_threshold : option float) (top_n : option Z)
    (user : option str) (sent : list Rerank.http_request)
    (u target : str) (t : float) (response : Rerank.Response)
    (entries : list Rerank.result_json) :
  docs ≠ [] →
  credentials !! lit "endpoint_url" = Some (VStr u) →
  py_float (get credentials (lit "timeout") (VInt 12)) = Ok t →
  yarl_URL (strip_version_suffix u) [lit "v1"; lit "rerank"] = Ok target →
  provider (rerank_request model credentials query docs top_n target t)
    = Ok response →
  (Rerank.status_code response < 400 ∨ 600 ≤ Rerank.status_code response)%Z →
  Rerank.json response = Ok {| Rerank.results := Some entries |} →
  Forall (λ res, ∃ d, emits docs res d) entries →
  ∃ ds,
    Rerank._invoke provider yarl_URL py_float
      model credentials query docs score_threshold top_n user sent
    = (Ok {| Rerank.model := strip model; Rerank.docs := ds |},
       sent ++ [rerank_request model credentials query docs top_n target t]) ∧
    Forall2 (emits docs) (List.filter (entry_passes score_threshold) entries) ds ∧
    (score_threshold = None → Forall2 (emits docs) entries ds) ∧
    (∀ x, score_threshold = Some x →
       Forall (λ d, PrimFloat.leb x (Rerank.score d) = true) ds).
Proof.
  intros Hdocs Hu Ht Hy Hp Hstatus Hjson Hentries.
  destruct (for_each_emits docs score_threshold entries [] Hentries)
    as (ds & Hloop & Hds).
  exists ds. split.
  - rewrite (invoke_sends _ _ _ _ _ _ _ _ _ _ _ u t target) by done.
    rewrite Hp.
    unfold read_response, Rerank.raise_for_status, Rerank.subscript, mbind,
      result_bind.
    cbv zeta.
    assert ((400 <=? Rerank.status_code response)
            && (Rerank.status_code response <? 500) = false)%Z as ->
      by (apply andb_false_iff; rewrite Z.leb_gt, Z.ltb_ge; lia).
    assert ((500 <=? Rerank.status_code response)
            && (Rerank.status_code response <? 600) = false)%Z as ->
      by (apply andb_false_iff; rewrite Z.leb_gt, Z.ltb_ge; lia).
    cbv beta iota. rewrite Hjson. cbn [Rerank.results]. by rewrite Hloop.
  - split; [done|]. split.
    + intros ->. by rewrite (filter_passes_all docs entries Hentries) in Hds.
    + intros x ->. exact (emits_score docs (Some x) entries ds Hds).
Qed.

Lemma run_docs : Scenario.docs ≠ [].
Proof. discriminate. Qed.

Lemma run_endpoint :
  Scenario.credentials !! lit "endpoint_url" = Some (VStr Run.endpoint).
Proof. unfold Scenario.credentials, Run.endpoint. apply lookup_insert_eq. Qed.

Lemma run_timeout :
  Scenario.py_float (get Scenario.credentials (lit "timeout") (VInt 12))
  = Ok 12%float.
Proof. by vm_compute. Qed.

Lemma run_target :
  Scenario.yarl_URL (strip_version_suffix Run.endpoint) [lit "v1"; lit "rerank"]
  = Ok Scenario.target.
Proof. by vm_compute. Qed.

Lemma run_entries :
  Forall (λ res, ∃ d, emits Scenario.docs res d) Scenario.entries.
Proof.
  unfold Scenario.entries.
  repeat (constructor; [eexists; apply emits_fallback; by vm_compute|]).
  constructor.
Qed.

Lemma invoke_returns_filtered_results_witness :
  ∃ ds,
    Rerank._invoke (Scenario.provider_ok Scenario.entries) Scenario.yarl_URL
      Scenario.py_float Run.model Scenario.credentials Run.query Scenario.docs
      (Some 0.5%float) None None []
    = (Ok {| Rerank.model := strip Run.model; Rerank.docs := ds |},
       [] ++ [Run.request]) ∧
    Forall2 (emits Scenario.docs)
      (List.filter (entry_passes (Some 0.5%float)) Scenario.entries) ds ∧
    (Some 0.5%float = None → Forall2 (emits Scenario.docs) Scenario.entries ds) ∧
    (∀ x, Some 0.5%float = Some x →
       Forall (λ d, PrimFloat.leb x (Rerank.score d) = true) ds).
Proof.
  exact (invoke_returns_filtered_results
           (Scenario.provider_ok Scenario.entries) Scenario.yarl_URL
           Scenario.py_float Run.model Scenario.credentials Run.query
           Scenario.docs (Some 0.5%float) None None []
           Run.endpoint Scenario.target 12%float
           (Run.response_ok Scenario.entries) Scenario.entries
           run_docs run_endpoint run_timeout run_target eq_refl
           (or_introl eq_refl) eq_refl run_entries).
Defined.

(** The scenario computed: of the two entries only document 1 passes the
    threshold 0.5, and its text is read from [docs]. *)
Example scenario_rerank :
  Rerank._invoke (Scenario.provider_ok Scenario.entries) Scenario.yarl_URL
    Scenario.py_float Run.model Scenario.credentials Run.query Scenario.docs
    (Some 0.5%float) None None []
  = (Ok {| Rerank.model := lit "rerank-v1";
           Rerank.docs := [{| Rerank.index := 1; Rerank.text := lit "B";
                              Rerank.score := 0.92%float |}] |},
     [Run.request]).
Proof. vm_compute. reflexivity. Qed.

(** X12: an HTTP error status is not turned into "server unavailable".
    When the provider answers with a status from 400 to 599, the exception
    of [raise_for_status] is the HTTP error of the requests library, which
    the [except httpx.HTTPStatusError] clause does not catch: the call
    raises that error unchanged, after having sent its one request. *)
Theorem invoke_http_error_status
    (provider : Rerank.http_request → result Rerank.Response)
    (yarl_URL : str → list str → result str)
    (py_float : value → result float)
    (model : str) (credentials : gmap str value) (query : str)
    (docs : list str) (score_threshold : option float) (top_n : option Z)
    (user : option str) (sent : list Rerank.http_request)
    (u target : str) (t : float) (response : Rerank.Response) :
  docs ≠ [] →
  credentials !! lit "endpoint_url" = Some (VStr u) →
  py_float (get credentials (lit "timeout") (VInt 12)) = Ok t →
  yarl_URL (strip_version_suffix u) [lit "v1"; lit "rerank"] = Ok target →
  provider (rerank_request model credentials query docs top_n target t)
    = Ok response →
  (400 ≤ Rerank.status_code response < 600)%Z →
  ∃ e,
    Rerank._invoke provider yarl_URL py_float
      model credentials query docs score_threshold top_n user sent
    = (Raise e,
       sent ++ [rerank_request model credentials query docs top_n target t]) ∧
    Rerank.raise_for_status response = Raise e ∧
    exc_type e = requests_HTTPError ∧
    exc_type e ≠ InvokeServerUnavailableError.
Proof.
  intros Hdocs Hu Ht Hy Hp Hstatus.
  rewrite (invoke_sends _ _ _ _ _ _ _ _ _ _ _ u t target) by done.
  rewrite Hp. unfold read_response, Rerank.raise_for_status, mbind, result_bind.
  cbv zeta.
  destruct (Z.lt_ge_cases (Rerank.status_code response) 500) as [Hlt|Hge].
  - assert ((400 <=? Rerank.status_code response)
            && (Rerank.status_code response <? 500) = true)%Z as ->
      by (apply andb_true_intro; split; [apply Z.leb_le|apply Z.ltb_lt]; lia).
    eexists. rewrite except_status_error_other by discriminate.
    by repeat split.
  - assert ((400 <=? Rerank.status_code response)
            && (Rerank.status_code response <? 500) = false)%Z as ->
      by (apply andb_false_iff; rewrite Z.leb_gt, Z.ltb_ge; lia).
    assert ((500 <=? Rerank.status_code response)
            && (Rerank.status_code response <? 600) = true)%Z as ->
      by (apply andb_true_intro; split; [apply Z.leb_le|apply Z.ltb_lt]; lia).
    eexists. rewrite except_status_error_other by discriminate.
    by repeat split.
Qed.

Lemma invoke_http_error_status_witness :
  ∃ e,
    Rerank._invoke Scenario.provider_503 Scenario.yarl_URL Scenario.py_float
      Run.model Scenario.credentials Run.query Scenario.docs None None None []
    = (Raise e, [] ++ [Run.request]) ∧
    Rerank.raise_for_status (Run.response_503) = Raise e ∧
    exc_type e = requests_HTTPError ∧
    exc_type e ≠ InvokeServerUnavailableError.
Proof.
  refine (invoke_http_error_status Scenario.provider_503 Scenario.yarl_URL
            Scenario.py_float Run.model Scenario.credentials Run.query
            Scenario.docs None None None [] Run.endpoint Scenario.target
            12%float Run.response_503
            run_docs run_endpoint run_timeout run_target eq_refl _).
  unfold Run.response_503. cbn [Rerank.status_code]. lia.
Defined.

(** The same run computed: status 503 surfaces as the HTTP error of the
    requests library, with its message. *)
Example scenario_http_503 :
  Rerank._invoke Scenario.provider_503 Scenario.yarl_URL Scenario.py_float
    Run.model Scenario.credentials Run.query Scenario.docs None None None []
  = (Raise (Exc requests_HTTPError
              (lit "503 Server Error: Service Unavailable for url: https://api.example.com/v1/rerank")),
     [Run.request]).
Proof. vm_compute. reflexivity. Qed.

(** X13: a failure of the transport.  When [requests.post] raises, that one
    call has been made and the exception leaves the rerank call unchanged,
    unless it is an [httpx.HTTPStatusError]: only that class is replaced,
    by "server unavailable" with the same message. *)
Theorem invoke_transport_failure
    (provider : Rerank.http_request → result Rerank.Response)
    (yarl_URL : str → list str → result str)
    (py_float : value → result float)
    (model : str) (credentials : gmap str value) (query : str)
    (docs : list str) (score_threshold : option float) (top_n : option Z)
    (user : option str) (sent : list Rerank.http_request)
    (u target : str) (t : float) (e : exception) :
  docs ≠ [] →
  credentials !! lit "endpoint_url" = Some (VStr u) →
  py_float (get credentials (lit "timeout") (VInt 12)) = Ok t →
  yarl_URL (strip_version_suffix u) [lit "v1"; lit "rerank"] = Ok target →
  provider (rerank_request model credentials query docs top_n target t)
    = Raise e →
  Rerank._invoke provider yarl_URL py_float
    model credentials query docs score_threshold top_n user sent
  = (Raise (if bool_decide (exc_type e = httpx_HTTPStatusError)
            then Exc InvokeServerUnavailableError (exc_str e)
            else e),
     sent ++ [rerank_request model credentials query docs top_n target t]).
Proof.
  intros Hdocs Hu Ht Hy Hp.
  rewrite (invoke_sends _ _ _ _ _ _ _ _ _ _ _ u t target) by done.
  rewrite Hp. cbn [mbind result_bind].
  unfold except_status_error, isinstance, issubclass.
  by case_bool_decide.
Qed.

Lemma invoke_transport_failure_witness :
  Rerank._invoke Scenario.provider_down Scenario.yarl_URL Scenario.py_float
    Run.model Scenario.credentials Run.query Scenario.docs None None None []
  = (Raise (if bool_decide
                 (exc_type (Exc requests_ConnectionError (lit "Connection refused"))
                  = httpx_HTTPStatusError)
            then Exc InvokeServerUnavailableError
                   (exc_str (Exc requests_ConnectionError
                               (lit "Connection refused")))
            else Exc requests_ConnectionError (lit "Connection refused")),
     [] ++ [Run.request]).
Proof.
  exact (invoke_transport_failure Scenario.provider_down Scenario.yarl_URL
           Scenario.py_float Run.model Scenario.credentials Run.query
           Scenario.docs None None None [] Run.endpoint Scenario.target
           12%float (Exc requests_ConnectionError (lit "Connection refused"))
           run_docs run_endpoint run_timeout run_target eq_refl).
Defined.

(** X14: no [httpx.HTTPStatusError] ever leaves the rerank call, whatever
    the arguments, the provider and the libraries do; the entry of the
    error-mapping table for that class therefore never applies to an
    exception of this call. *)
Theorem invoke_never_raises_status_error
    (provider : Rerank.http_request → result Rerank.Response)
    (yarl_URL : str → list str → result str)
    (py_float : value → result float)
    (model : str) (credentials : gmap str value) (query : str)
    (docs : list str) (score_threshold : option float) (top_n : option Z)
    (user : option str) (sent sent' : list Rerank.http_request)
    (e : exception) :
  Rerank._invoke provider yarl_URL py_float
    model credentials query docs score_threshold top_n user sent
  = (Raise e, sent') →
  exc_type e ≠ httpx_HTTPStatusError.
Proof.
  destruct docs as [|doc docs]; [rewrite invoke_empty_eq; discriminate|].
  rewrite invoke_nonempty by discriminate.
  destruct (credentials !! lit "endpoint_url") as [v|];
    [|intros [= <- _]; discriminate].
  destruct v as [|z|u]; cbn [str_method];
    [intros [= <- _]; discriminate..|].
  destruct (py_float _) as [t|e1];
    [|intros H; exact (except_status_error_class _ _ (f_equal fst H))].
  destruct (yarl_URL _ _) as [target|e1];
    [|intros H; exact (except_status_error_class _ _ (f_equal fst H))].
  intros H. exact (except_status_error_class _ _ (f_equal fst H)).
Qed.

Lemma invoke_never_raises_status_error_witness :
  exc_type (Exc requests_ConnectionError (lit "Connection refused"))
  ≠ httpx_HTTPStatusError.
Proof.
  refine (invoke_never_raises_status_error Scenario.provider_down
            Scenario.yarl_URL Scenario.py_float Run.model Scenario.credentials
            Run.query Scenario.docs None None None [] [Run.request]
            (Exc requests_ConnectionError (lit "Connection refused")) _).
  vm_compute. reflexivity.
Defined.

(** X15: the request.  A call with documents to rank sends at most one
    request, and any request it sends carries the body
    [{model, query, documents, top_n}] with the model trimmed, the
    documents as given and [top_n] as given, or 3 when it is [None] (a
    [top_n] of 0 is sent as 0).  With a string endpoint, a timeout and a
    target URL the request is sent, to that URL and with that timeout. *)
Theorem invoke_request_body
    (provider : Rerank.http_request → result Rerank.Response)
    (yarl_URL : str → list str → result str)
    (py_float : value → result float)
    (model : str) (credentials : gmap str value) (query : str)
    (docs : list str) (score_threshold : option float) (top_n : option Z)
    (user : option str) (sent sent' : list Rerank.http_request)
    (r : result Rerank.RerankResult) :
  docs ≠ [] →
  Rerank._invoke provider yarl_URL py_float
    model credentials query docs score_threshold top_n user sent
  = (r, sent') →
  (sent' = sent ∨
   ∃ request, sent' = sent ++ [request] ∧
     Rerank.data request
     = Rerank.dumps
         [(lit "model", Rerank.JStr (strip model));
          (lit "query", Rerank.JStr query);
          (lit "documents", Rerank.JList (Rerank.JStr <$> docs));
          (lit "top_n",
           Rerank.JInt match top_n with None => 3%Z | Some n => n end)]) ∧
  (∀ u t target,
     credentials !! lit "endpoint_url" = Some (VStr u) →
     py_float (get credentials (lit "timeout") (VInt 12)) = Ok t →
     yarl_URL (strip_version_suffix u) [lit "v1"; lit "rerank"] = Ok target →
     ∃ request, sent' = sent ++ [request] ∧
       Rerank.url request = target ∧ Rerank.timeout request = t ∧
       Rerank.headers request
       = [(lit "Authorization",
           lit "Bearer " ++ format (get credentials (lit "api_key") VNone));
          (lit "Content-Type", lit "application/json")]).
Proof.
  intros Hdocs Hrun. split.
  - rewrite invoke_nonempty in Hrun by done.
    pose proof (f_equal snd Hrun) as Hs. clear Hrun.
    destruct (credentials !! lit "endpoint_url") as [v|];
      [|left; by cbn [snd] in Hs].
    destruct (str_method v (lit "rstrip")) as [u|]; [|left; by cbn [snd] in Hs].
    destruct (py_float _) as [t|]; [|left; by cbn [snd] in Hs].
    destruct (yarl_URL _ _) as [target|]; [|left; by cbn [snd] in Hs].
    right. eexists. split; [by cbn [snd] in Hs|reflexivity].
  - intros u t target Hu Ht Hy.
    rewrite (invoke_sends _ _ _ _ _ _ _ _ _ _ _ u t target) in Hrun by done.
    pose proof (f_equal snd Hrun) as Hs. cbn [snd] in Hs.
    eexists. split; [done|]. by repeat split.
Qed.

Lemma invoke_request_body_witness :
  ∃ request, [Run.request] = [] ++ [request] ∧
    Rerank.url request = Scenario.target ∧ Rerank.timeout request = 12%float ∧
    Rerank.headers request
    = [(lit "Authorization",
        lit "Bearer " ++ format (get Scenario.credentials (lit "api_key") VNone));
       (lit "Content-Type", lit "application/json")].
Proof.
  refine (proj2 (invoke_request_body (Scenario.provider_ok Scenario.entries)
                   Scenario.yarl_URL Scenario.py_float Run.model
                   Scenario.credentials Run.query Scenario.docs
                   (Some 0.5%float) None None [] [Run.request]
                   (Ok {| Rerank.model := lit "rerank-v1";
                          Rerank.docs :=
                            [{| Rerank.index := 1; Rerank.text := lit "B";
                                Rerank.score := 0.92%float |}] |})
                   run_docs scenario_rerank)
            Run.endpoint 12%float Scenario.target
            run_endpoint run_timeout run_target).
Defined.

(** X16: failures before the request.  Without [endpoint_url] the call
    raises [KeyError('endpoint_url')]; when [float()] rejects the timeout,
    or the URL builder rejects the base, that exception is raised (it
    passes the [except] clause unless it is an [httpx.HTTPStatusError]).
    In each case nothing has been sent. *)
Theorem invoke_fails_before_request
    (provider : Rerank.http_request → result Rerank.Response)
    (yarl_URL : str → list str → result str)
    (py_float : value → result float)
    (model : str) (credentials : gmap str value) (query : str)
    (docs : list str) (score_threshold : option float) (top_n : option Z)
    (user : option str) (sent : list Rerank.http_request) :
  docs ≠ [] →
  (credentials !! lit "endpoint_url" = None →
   Rerank._invoke provider yarl_URL py_float
     model credentials query docs score_threshold top_n user sent
   = (Raise (KeyError_ (lit "endpoint_url")), sent)) ∧
  (∀ u e,
     credentials !! lit "endpoint_url" = Some (VStr u) →
     py_float (get credentials (lit "timeout") (VInt 12)) = Raise e →
     exc_type e ≠ httpx_HTTPStatusError →
     Rerank._invoke provider yarl_URL py_float
       model credentials query docs score_threshold top_n user sent
     = (Raise e, sent)) ∧
  (∀ u t e,
     credentials !! lit "endpoint_url" = Some (VStr u) →
     py_float (get credentials (lit "timeout") (VInt 12)) = Ok t →
     yarl_URL (strip_version_suffix u) [lit "v1"; lit "rerank"] = Raise e →
     exc_type e ≠ httpx_HTTPStatusError →
     Rerank._invoke provider yarl_URL py_float
       model credentials query docs score_threshold top_n user sent
     = (Raise e, sent)).
Proof.
  intros Hdocs. rewrite invoke_nonempty by done. repeat split.
  - by intros ->.
  - intros u e -> Ht He. cbn [str_method]. rewrite Ht.
    by rewrite except_status_error_other.
  - intros u t e -> Ht Hy He. cbn [str_method]. rewrite Ht, Hy.
    by rewrite except_status_error_other.
Qed.

Lemma invoke_fails_before_request_witness :
  Rerank._invoke Scenario.provider_down Scenario.yarl_URL Scenario.py_float
    Run.model ∅ Run.query Scenario.docs None None None []
  = (Raise (KeyError_ (lit "endpoint_url")), []).
Proof.
  refine (proj1 (invoke_fails_before_request Scenario.provider_down
                   Scenario.yarl_URL Scenario.py_float Run.model ∅ Run.query
                   Scenario.docs None None None [] run_docs) _).
  apply lookup_empty.
Defined.

(** X17: a missing [api_key] does not stop the call: the request goes out
    with the header [Authorization: Bearer None]. *)
Theorem invoke_without_api_key
    (provider : Rerank.http_request → result Rerank.Response)
    (yarl_URL : str → list str → result str)
    (py_float : value → result float)
    (model : str) (credentials : gmap str value) (query : str)
    (docs : list str) (score_threshold : option float) (top_n : option Z)
    (user : option str) (sent : list Rerank.http_request)
    (u target : str) (t : float) :
  docs ≠ [] →
  credentials !! lit "endpoint_url" = Some (VStr u) →
  credentials !! lit "api_key" = None →
  py_float (get credentials (lit "timeout") (VInt 12)) = Ok t →
  yarl_URL (strip_version_suffix u) [lit "v1"; lit "rerank"] = Ok target →
  ∃ request,
    (Rerank._invoke provider yarl_URL py_float
       model credentials query docs score_threshold top_n user sent).2
    = sent ++ [request] ∧
    Rerank.headers request
    = [(lit "Authorization", lit "Bearer None");
       (lit "Content-Type", lit "application/json")].
Proof.
  intros Hdocs Hu Hk Ht Hy.
  rewrite (invoke_sends _ _ _ _ _ _ _ _ _ _ _ u t target) by done.
  eexists. split; [reflexivity|].
  unfold rerank_request, get. cbn [Rerank.headers]. rewrite Hk.
  cbn [format]. reflexivity.
Qed.

Lemma invoke_without_api_key_witness :
  ∃ request,
    (Rerank._invoke Scenario.provider_down Scenario.yarl_URL Scenario.py_float
       Run.model {[ lit "endpoint_url" := VStr Run.endpoint ]} Run.query
       Scenario.docs None None None []).2
    = [] ++ [request] ∧
    Rerank.headers request
    = [(lit "Authorization", lit "Bearer None");
       (lit "Content-Type", lit "application/json")].
Proof.
  refine (invoke_without_api_key Scenario.provider_down Scenario.yarl_URL
            Scenario.py_float Run.model {[ lit "endpoint_url" := VStr Run.endpoint ]}
            Run.query Scenario.docs None None None []
            Run.endpoint Scenario.target 12%float run_docs _ _ _ run_target).
  - apply lookup_singleton_eq.
  - by vm_compute.
  - by vm_compute.
Defined.

Section Reading.
Context (provider : Rerank.http_request → result Rerank.Response)
        (yarl_URL : str → list str → result str)
        (py_float : value → result float).
Context (model : str) (credentials : gmap str value) (query : str)
        (docs : list str) (score_threshold : option float) (top_n : option Z)
        (user : option str) (sent : list Rerank.http_request)
        (u target : str) (t : float) (response : Rerank.Response).
Hypothesis Hdocs : docs ≠ [].
Hypothesis Hu : credentials !! lit "endpoint_url" = Some (VStr u).
Hypothesis Ht : py_float (get credentials (lit "timeout") (VInt 12)) = Ok t.
Hypothesis Hy :
  yarl_URL (strip_version_suffix u) [lit "v1"; lit "rerank"] = Ok target.
Hypothesis Hp :
  provider (rerank_request model credentials query docs top_n target t)
  = Ok response.
Hypothesis Hstatus :
  (Rerank.status_code response < 400 ∨ 600 ≤ Rerank.status_code response)%Z.

Lemma raise_for_status_ok : Rerank.raise_for_status response = Ok ().
Proof.
  unfold Rerank.raise_for_status. cbv zeta.
  assert ((400 <=? Rerank.status_code response)
          && (Rerank.status_code response <? 500) = false)%Z as ->
    by (apply andb_false_iff; rewrite Z.leb_gt, Z.ltb_ge; lia).
  assert ((500 <=? Rerank.status_code response)
          && (Rerank.status_code response <? 600) = false)%Z as ->
    by (apply andb_false_iff; rewrite Z.leb_gt, Z.ltb_ge; lia).
  reflexivity.
Qed.

(** Once a response without an error status has arrived, the outcome is
    that of reading its body. *)
Lemma invoke_reads :
  Rerank._invoke provider yarl_URL py_float
    model credentials query docs score_threshold top_n user sent
  = (except_status_error
       (results ← Rerank.json response;
        entries ← Rerank.subscript (Rerank.results results) (lit "results");
        rerank_documents ←
          for_each entries [] (Rerank.rerank_step docs score_threshold);
        Ok {| Rerank.model := strip model; Rerank.docs := rerank_documents |}),
     sent ++ [rerank_request model credentials query docs top_n target t]).
Proof.
  rewrite (invoke_sends _ _ _ _ _ _ _ _ _ _ _ u t target) by done.
  rewrite Hp. unfold read_response. cbn [mbind result_bind].
  by rewrite raise_for_status_ok.
Qed.

(** With a body that has [results], the outcome is that of the loop. *)
Lemma invoke_loops entries :
  Rerank.json response = Ok {| Rerank.results := Some entries |} →
  Rerank._invoke provider yarl_URL py_float
    model credentials query docs score_threshold top_n user sent
  = (except_status_error
       (rerank_documents ←
          for_each entries [] (Rerank.rerank_step docs score_threshold);
        Ok {| Rerank.model := strip model; Rerank.docs := rerank_documents |}),
     sent ++ [rerank_request model credentials query docs top_n target t]).
Proof. intros Hjson. rewrite invoke_reads, Hjson. reflexivity. Qed.

(** The loop stopped by an entry: the call raises that entry's exception. *)
Lemma invoke_stopped pre res post e :
  Rerank.json response = Ok {| Rerank.results := Some (pre ++ res :: post) |} →
  Forall (λ res, ∃ d, emits docs res d) pre →
  (∀ acc, Rerank.rerank_step docs score_threshold acc res = Raise e) →
  exc_type e ≠ httpx_HTTPStatusError →
  Rerank._invoke provider yarl_URL py_float
    model credentials query docs score_threshold top_n user sent
  = (Raise e,
     sent ++ [rerank_request model credentials query docs top_n target t]).
Proof.
  intros Hjson Hpre Hres He. rewrite (invoke_loops _ Hjson).
  rewrite (for_each_first_failure _ _ _ _ _ _ e Hpre Hres).
  cbn [mbind result_bind]. by rewrite except_status_error_other.
Qed.

End Reading.



(** X19: an incomplete entry.  After a response without an error status
    whose entries before [res] are complete, the call raises and returns
    none of the documents collected so far: [KeyError('index')] when [res]
    has no index; [KeyError('text')] when its [document] has no text; and
    [KeyError('relevance_score')] when it has no score although its text
    could be read. *)
Theorem invoke_incomplete_entry
    (provider : Rerank.http_request → result Rerank.Response)
    (yarl_URL : str → list str → result str)
    (py_float : value → result float)
    (model : str) (credentials : gmap str value) (query : str)
    (docs : list str) (score_threshold : option float) (top_n : option Z)
    (user : option str) (sent : list Rerank.http_request)
    (u target : str) (t : float) (response : Rerank.Response)
    (pre post : list Rerank.result_json) (res : Rerank.result_json) :
  docs ≠ [] →
  credentials !! lit "endpoint_url" = Some (VStr u) →
  py_float (get credentials (lit "timeout") (VInt 12)) = Ok t →
  yarl_URL (strip_version_suffix u) [lit "v1"; lit "rerank"] = Ok target →
  provider (rerank_request model credentials query docs top_n target t)
    = Ok response →
  (Rerank.status_code response < 400 ∨ 600 ≤ Rerank.status_code response)%Z →
  Rerank.json response
    = Ok {| Rerank.results := Some (pre ++ res :: post) |} →
  Forall (λ res, ∃ d, emits docs res d) pre →
  let outcome :=
    Rerank._invoke provider yarl_URL py_float
      model credentials query docs score_threshold top_n user sent in
  let request := rerank_request model credentials query docs top_n target t in
  (Rerank.res_index res = None →
   outcome = (Raise (KeyError_ (lit "index")), sent ++ [request])) ∧
  (∀ i, Rerank.res_index res = Some i →
     Rerank.res_document res = Some {| Rerank.doc_text := None |} →
     outcome = (Raise (KeyError_ (lit "text")), sent ++ [request])) ∧
  (∀ i, Rerank.res_index res = Some i →
     Rerank.res_relevance_score res = None →
     (∃ x, Rerank.res_document res = Some {| Rerank.doc_text := Some x |}) ∨
     (Rerank.res_document res = None ∧ in_range docs i) →
     outcome = (Raise (KeyError_ (lit "relevance_score")), sent ++ [request])).
Proof.
  intros Hdocs Hu Ht Hy Hp Hstatus Hjson Hpre outcome request.
  subst outcome request.
  pose proof (invoke_stopped provider yarl_URL py_float model credentials query
                docs score_threshold top_n user sent u target t response
                Hdocs Hu Ht Hy Hp Hstatus pre res post) as Hstop.
  destruct res as [ri rd rs].
  cbn [Rerank.res_index Rerank.res_document Rerank.res_relevance_score].
  split; [|split].
  - intros ->. apply Hstop; [done..| |discriminate].
    intros acc. reflexivity.
  - intros i -> ->. apply Hstop; [done..| |discriminate].
    intros acc. reflexivity.
  - intros i -> -> [[x ->]|[-> Hi]]; (apply Hstop; [done..| |discriminate]);
      intros acc.
    + reflexivity.
    + destruct (list_getitem_in_range docs i Hi) as [x Hx].
      unfold Rerank.rerank_step, Rerank.subscript, mbind, result_bind.
      cbn [Rerank.res_index Rerank.res_document Rerank.res_relevance_score].
      by rewrite Hx.
Qed.

Lemma invoke_incomplete_entry_witness :
  Rerank._invoke
    (Scenario.provider_ok
       ([] ++ {| Rerank.res_index := None; Rerank.res_document := None;
                 Rerank.res_relevance_score := Some 0.92%float |} :: []))
    Scenario.yarl_URL Scenario.py_float Run.model Scenario.credentials
    Run.query Scenario.docs None None None []
  = (Raise (KeyError_ (lit "index")), [] ++ [Run.request]).
Proof.
  refine (proj1 (invoke_incomplete_entry
            (Scenario.provider_ok
               ([] ++ {| Rerank.res_index := None; Rerank.res_document := None;
                         Rerank.res_relevance_score := Some 0.92%float |} :: []))
            Scenario.yarl_URL Scenario.py_float Run.model Scenario.credentials
            Run.query Scenario.docs None None None [] Run.endpoint
            Scenario.target 12%float
            (Run.response_ok
               ([] ++ {| Rerank.res_index := None; Rerank.res_document := None;
                         Rerank.res_relevance_score := Some 0.92%float |} :: []))
            [] []
            {| Rerank.res_index := None; Rerank.res_document := None;
               Rerank.res_relevance_score := Some 0.92%float |}
            run_docs run_endpoint run_timeout run_target eq_refl
            (or_introl eq_refl) eq_refl (Forall_nil_2 _)) eq_refl).
Defined.

(** X20: a response that cannot be read.  After a response without an error
    status: when [response.json()] raises, that exception leaves the call
    (unless it is an [httpx.HTTPStatusError]); when the body has no
    [results] key, the call raises [KeyError('results')]. *)
Theorem invoke_unreadable_response
    (provider : Rerank.http_request → result Rerank.Response)
    (yarl_URL : str → list str → result str)
    (py_float : value → result float)
    (model : str) (credentials : gmap str value) (query : str)
    (docs : list str) (score_threshold : option float) (top_n : option Z)
    (user : option str) (sent : list Rerank.http_request)
    (u target : str) (t : float) (response : Rerank.Response) :
  docs ≠ [] →
  credentials !! lit "endpoint_url" = Some (VStr u) →
  py_float (get credentials (lit "timeout") (VInt 12)) = Ok t →
  yarl_URL (strip_version_suffix u) [lit "v1"; lit "rerank"] = Ok target →
  provider (rerank_request model credentials query docs top_n target t)
    = Ok response →
  (Rerank.status_code response < 400 ∨ 600 ≤ Rerank.status_code response)%Z →
  let outcome :=
    Rerank._invoke provider yarl_URL py_float
      model credentials query docs score_threshold top_n user sent in
  let request := rerank_request model credentials query docs top_n target t in
  (∀ e, Rerank.json response = Raise e →
     exc_type e ≠ httpx_HTTPStatusError →
     outcome = (Raise e, sent ++ [request])) ∧
  (Rerank.json response = Ok {| Rerank.results := None |} →
   outcome = (Raise (KeyError_ (lit "results")), sent ++ [request])).
Proof.
  intros Hdocs Hu Ht Hy Hp Hstatus outcome request. subst outcome request.
  rewrite (invoke_reads provider yarl_URL py_float model credentials query docs
             score_threshold top_n user sent u target t response
             Hdocs Hu Ht Hy Hp Hstatus).
  split.
  - intros e -> He. cbn [mbind result_bind].
    by rewrite except_status_error_other.
  - intros ->. reflexivity.
Qed.

Lemma invoke_unreadable_response_witness :
  Rerank._invoke
    (λ request, Ok {| Rerank.status_code := 200; Rerank.reason := lit "OK";
                      Rerank.response_url := Rerank.url request;
                      Rerank.json := Ok {| Rerank.results := None |} |})
    Scenario.yarl_URL Scenario.py_float Run.model Scenario.credentials
    Run.query Scenario.docs None None None []
  = (Raise (KeyError_ (lit "results")), [] ++ [Run.request]).
Proof.
  refine (proj2 (invoke_unreadable_response
            (λ request, Ok {| Rerank.status_code := 200;
                              Rerank.reason := lit "OK";
                              Rerank.response_url := Rerank.url request;
                              Rerank.json := Ok {| Rerank.results := None |} |})
            Scenario.yarl_URL Scenario.py_float Run.model Scenario.credentials
            Run.query Scenario.docs None None None [] Run.endpoint
            Scenario.target 12%float
            {| Rerank.status_code := 200; Rerank.reason := lit "OK";
               Rerank.response_url := Rerank.url Run.request;
               Rerank.json := Ok {| Rerank.results := None |} |}
            run_docs run_endpoint run_timeout run_target eq_refl
            (or_introl eq_refl)) eq_refl).
Defined.

(** X21: a negative index counts from the end.  An entry without
    [document] whose index is [-(k+1)], with [k < len(docs)], takes its text
    from position [len(docs) - (k+1)] and is returned with its negative
    index unchanged; a response with that single entry and no threshold
    gives exactly that document. *)
Theorem invoke_negative_index
    (provider : Rerank.http_request → result Rerank.Response)
    (yarl_URL : str → list str → result str)
    (py_float : value → result float)
    (model : str) (credentials : gmap str value) (query : str)
    (docs : list str) (top_n : option Z)
    (user : option str) (sent : list Rerank.http_request)
    (u target : str) (t : float) (response : Rerank.Response)
    (k : nat) (x : str) (s : float) :
  credentials !! lit "endpoint_url" = Some (VStr u) →
  py_float (get credentials (lit "timeout") (VInt 12)) = Ok t →
  yarl_URL (strip_version_suffix u) [lit "v1"; lit "rerank"] = Ok target →
  provider (rerank_request model credentials query docs top_n target t)
    = Ok response →
  (Rerank.status_code response < 400 ∨ 600 ≤ Rerank.status_code response)%Z →
  Rerank.json response
    = Ok {| Rerank.results :=
              Some [{| Rerank.res_index := Some (- Z.of_nat (S k))%Z;
                       Rerank.res_document := None;
                       Rerank.res_relevance_score := Some s |}] |} →
  docs !! (length docs - S k) = Some x → k < length docs →
  Rerank._invoke provider yarl_URL py_float
    model credentials query docs None top_n user sent
  = (Ok {| Rerank.model := strip model;
           Rerank.docs := [{| Rerank.index := (- Z.of_nat (S k))%Z;
                              Rerank.text := x; Rerank.score := s |}] |},
     sent ++ [rerank_request model credentials query docs top_n target t]).
Proof.
  intros Hu Ht Hy Hp Hstatus Hjson Hx Hk.
  assert (docs ≠ []) as Hdocs by (intros ->; cbn in Hk; lia).
  rewrite (invoke_loops provider yarl_URL py_float model credentials query docs
             None top_n user sent u target t response
             Hdocs Hu Ht Hy Hp Hstatus _ Hjson).
  cbn [for_each].
  rewrite (rerank_step_emits docs None [] _
             {| Rerank.index := (- Z.of_nat (S k))%Z; Rerank.text := x;
                Rerank.score := s |})
    by (apply emits_fallback; by apply list_getitem_negative).
  reflexivity.
Qed.

Lemma invoke_negative_index_witness :
  Rerank._invoke
    (Scenario.provider_ok
       [{| Rerank.res_index := Some (- Z.of_nat 1)%Z;
           Rerank.res_document := None;
           Rerank.res_relevance_score := Some 0.92%float |}])
    Scenario.yarl_URL Scenario.py_float Run.model Scenario.credentials
    Run.query Scenario.docs None None None []
  = (Ok {| Rerank.model := strip Run.model;
           Rerank.docs := [{| Rerank.index := (- Z.of_nat 1)%Z;
                              Rerank.text := lit "B";
                              Rerank.score := 0.92%float |}] |},
     [] ++ [Run.request]).
Proof.
  exact (invoke_negative_index
           (Scenario.provider_ok
              [{| Rerank.res_index := Some (- Z.of_nat 1)%Z;
                  Rerank.res_document := None;
                  Rerank.res_relevance_score := Some 0.92%float |}])
           Scenario.yarl_URL Scenario.py_float Run.model Scenario.credentials
           Run.query Scenario.docs None None [] Run.endpoint Scenario.target
           12%float
           (Run.response_ok
              [{| Rerank.res_index := Some (- Z.of_nat 1)%Z;
                  Rerank.res_document := None;
                  Rerank.res_relevance_score := Some 0.92%float |}])
           0 (lit "B") 0.92%float
           run_endpoint run_timeout run_target eq_refl (or_introl eq_refl)
           eq_refl eq_refl (Nat.lt_0_succ 1)).
Defined.

(** X22: the model of the result.  Whenever the call returns, the result
    carries the model exactly as given when [docs] is empty, and the
    trimmed model otherwise. *)
Theorem invoke_model_field
    (provider : Rerank.http_request → result Rerank.Response)
    (yarl_URL : str → list str → result str)
    (py_float : value → result float)
    (model : str) (credentials : gmap str value) (query : str)
    (docs : list str) (score_threshold : option float) (top_n : option Z)
    (user : option str) (sent sent' : list Rerank.http_request)
    (r : Rerank.RerankResult) :
  Rerank._invoke provider yarl_URL py_float
    model credentials query docs score_threshold top_n user sent
  = (Ok r, sent') →
  Rerank.model r = if bool_decide (docs = []) then model else strip model.
Proof.
  destruct docs as [|doc docs].
  - rewrite invoke_empty_eq. intros H.
    pose proof (f_equal fst H) as H1. cbn [fst] in H1.
    injection H1 as <-. reflexivity.
  - rewrite bool_decide_eq_false_2 by discriminate.
    rewrite invoke_nonempty by discriminate. intros H.
    pose proof (f_equal fst H) as H1. clear H.
    destruct (credentials !! lit "endpoint_url") as [v|]; [|discriminate H1].
    destruct (str_method v (lit "rstrip")) as [u|]; [|discriminate H1].
    unfold except_status_error in H1.
    destruct (py_float _) as [t|e];
      [|cbn [fst] in H1; destruct (isinstance e _); discriminate H1].
    destruct (yarl_URL _ _) as [target|e];
      [|cbn [fst] in H1; destruct (isinstance e _); discriminate H1].
    cbn [fst] in H1. unfold read_response, mbind, result_bind in H1.
    destruct (provider _) as [response|e];
      [|destruct (isinstance e _); discriminate H1].
    destruct (Rerank.raise_for_status response) as [[]|e];
      [|destruct (isinstance e _); discriminate H1].
    destruct (Rerank.json response) as [results|e];
      [|destruct (isinstance e _); discriminate H1].
    destruct (Rerank.subscript _ _) as [entries|e];
      [|destruct (isinstance e _); discriminate H1].
    destruct (for_each _ _ _) as [ds|e];
      [|destruct (isinstance e _); discriminate H1].
    injection H1 as <-. reflexivity.
Qed.

Lemma invoke_model_field_witness :
  Rerank.model
    {| Rerank.model := lit "rerank-v1";
       Rerank.docs := [{| Rerank.index := 1; Rerank.text := lit "B";
                          Rerank.score := 0.92%float |}] |}
  = if bool_decide (Scenario.docs = []) then Run.model else strip Run.model.
Proof.
  exact (invoke_model_field (Scenario.provider_ok Scenario.entries)
           Scenario.yarl_URL Scenario.py_float Run.model Scenario.credentials
           Run.query Scenario.docs (Some 0.5%float) None None [] [Run.request]
           _ scenario_rerank).
Defined.

(** ** Properties of the credential check of the rerank adapter *)

Lemma smoke_docs_nonempty : Rerank.smoke_docs ≠ [].
Proof. discriminate. Qed.

(** X23: every exception of the smoke-test call is wrapped.  When the inner
    call raises, [validate_credentials] raises "credentials invalid" whose
    message is the fixed prefix followed by the message of the original
    exception; and whatever [validate_credentials] raises is of that
    kind. *)
Theorem validate_credentials_wraps
    (provider : Rerank.http_request → result Rerank.Response)
    (yarl_URL : str → list str → result str)
    (py_float : value → result float)
    (model : str) (credentials : gmap str value)
    (sent sent' : list Rerank.http_request) (ex : exception) :
  Rerank._invoke provider yarl_URL py_float model credentials
    Rerank.smoke_query Rerank.smoke_docs (Some 0.8%float) None None sent
  = (Raise ex, sent') →
  Rerank.validate_credentials provider yarl_URL py_float model credentials sent
  = (Raise (Exc CredentialsValidateFailedError
              (lit "凭证验证失败: " ++ exc_str ex)), sent') ∧
  exc_str ex `suffix_of` (lit "凭证验证失败: " ++ exc_str ex) ∧
  (∀ e s,
     Rerank.validate_credentials provider yarl_URL py_float model credentials
       sent = (Raise e, s) →
     exc_type e = CredentialsValidateFailedError).
Proof.
  intros Hrun.
  unfold Rerank.validate_credentials, try_except, raise, mbind, mret,
    Eff_bind, Eff_ret.
  rewrite Hrun. cbv beta iota.
  split; [reflexivity|]. split; [by eexists|].
  intros e s H. pose proof (f_equal fst H) as H1. cbn [fst] in H1.
  injection H1 as <-. reflexivity.
Qed.

Lemma validate_credentials_wraps_witness :
  Rerank.validate_credentials Scenario.provider_down Scenario.yarl_URL
    Scenario.py_float Run.model Scenario.credentials []
  = (Raise (Exc CredentialsValidateFailedError
              (lit "凭证验证失败: "
               ++ exc_str (Exc requests_ConnectionError
                             (lit "Connection refused")))),
     [] ++ [rerank_request Run.model Scenario.credentials Rerank.smoke_query
              Rerank.smoke_docs None Scenario.target 12%float]).
Proof.
  refine (proj1 (validate_credentials_wraps Scenario.provider_down
                   Scenario.yarl_URL Scenario.py_float Run.model
                   Scenario.credentials [] _
                   (Exc requests_ConnectionError (lit "Connection refused")) _)).
  rewrite (invoke_sends _ _ _ _ _ _ _ _ _ _ _ Run.endpoint 12%float
             Scenario.target smoke_docs_nonempty run_endpoint run_timeout
             run_target).
  reflexivity.
Defined.

(** X24: the credential check looks at no result.  Whenever the smoke-test
    call returns, with whatever documents (none at all when no score
    reaches 0.8), [validate_credentials] returns normally; and the check
    never short-circuits: with a usable endpoint it always sends its one
    request. *)
Theorem validate_credentials_accepts_any_result
    (provider : Rerank.http_request → result Rerank.Response)
    (yarl_URL : str → list str → result str)
    (py_float : value → result float)
    (model : str) (credentials : gmap str value)
    (sent sent' : list Rerank.http_request) (r : Rerank.RerankResult) :
  Rerank._invoke provider yarl_URL py_float model credentials
    Rerank.smoke_query Rerank.smoke_docs (Some 0.8%float) None None sent
  = (Ok r, sent') →
  Rerank.validate_credentials provider yarl_URL py_float model credentials sent
  = (Ok (), sent') ∧
  (∀ u t target,
     credentials !! lit "endpoint_url" = Some (VStr u) →
     py_float (get credentials (lit "timeout") (VInt 12)) = Ok t →
     yarl_URL (strip_version_suffix u) [lit "v1"; lit "rerank"] = Ok target →
     sent' = sent ++ [rerank_request model credentials Rerank.smoke_query
                        Rerank.smoke_docs None target t]).
Proof.
  intros Hrun. split.
  - unfold Rerank.validate_credentials, try_except, mbind, mret, Eff_bind,
      Eff_ret.
    rewrite Hrun. reflexivity.
  - intros u t target Hu Ht Hy.
    rewrite (invoke_sends _ _ _ _ _ _ _ _ _ _ _ u t target
               smoke_docs_nonempty Hu Ht Hy) in Hrun.
    exact (eq_sym (f_equal snd Hrun)).
Qed.

Lemma validate_credentials_accepts_any_result_witness :
  Rerank.validate_credentials (Scenario.provider_ok []) Scenario.yarl_URL
    Scenario.py_float Run.model Scenario.credentials []
  = (Ok (),
     [] ++ [rerank_request Run.model Scenario.credentials Rerank.smoke_query
              Rerank.smoke_docs None Scenario.target 12%float]).
Proof.
  refine (proj1 (validate_credentials_accepts_any_result
                   (Scenario.provider_ok []) Scenario.yarl_URL
                   Scenario.py_float Run.model Scenario.credentials [] _
                   {| Rerank.model := strip Run.model; Rerank.docs := [] |} _)).
  rewrite (invoke_sends _ _ _ _ _ _ _ _ _ _ _ Run.endpoint 12%float
             Scenario.target smoke_docs_nonempty run_endpoint run_timeout
             run_target).
  reflexivity.
Defined.

(** ** Properties of the delegating adapters *)

Section OnDicts.
Context {F W : Type}.
Implicit Types (w : world F W) (l : positive) (d : gmap str value).

Lemma on_dicts_normalizer f w l d :
  f ∈ normalizers → dicts w !! l = Some d →
  on_dicts (f l) w =
    match d !! lit "endpoint_url" with
    | None => (Raise (KeyError_ (lit "endpoint_url")), with_copy w d)
    | Some v =>
      match str_method v (lit "rstrip") with
      | Raise e => (Raise e, with_copy w d)
      | Ok u =>
        (Ok (fresh (dom (dicts w))),
         with_copy w
           (<[lit "endpoint_url" := VStr (strip_version_suffix u ++ lit "/v1")]> d))
      end
    end.
Proof.
  intros Hf Hl. unfold on_dicts. rewrite (normalizer_cases f _ l Hf), Hl.
  destruct (d !! lit "endpoint_url") as [v|]; [|reflexivity].
  destruct (str_method v (lit "rstrip")); reflexivity.
Qed.

End OnDicts.

(** X25: the embedding and text-to-speech adapters hand the base
    implementation a normalised copy.  With a string [endpoint_url], each
    of their four methods is exactly the inherited method applied to a
    fresh object (the caller's mapping with [endpoint_url] replaced by the
    stripped base followed by [/v1]) in a world that differs only by that
    new object; the text-to-speech [_invoke] passes the trimmed model, the
    other three the model as given. *)
Theorem delegation_with_normalised_copy {F W : Type}
    (TextEmbeddingResult Audio : Type)
    (embedding_invoke :
       str → positive → list str → option str → EmbeddingInputType →
       Eff (world F W) TextEmbeddingResult)
    (embedding_validate : str → positive → Eff (world F W) unit)
    (tts_invoke :
       str → str → positive → str → str → option str → Eff (world F W) Audio)
    (tts_validate : str → positive → Eff (world F W) unit)
    (w : world F W) (l : positive) (d : gmap str value) (u : str) :
  dicts w !! l = Some d →
  d !! lit "endpoint_url" = Some (VStr u) →
  let l' := fresh (dom (dicts w)) in
  let w' :=
    with_copy w
      (<[lit "endpoint_url" := VStr (strip_version_suffix u ++ lit "/v1")]> d) in
  (l' ≠ l ∧ dicts w' !! l = Some d ∧
   dicts w' !! l'
   = Some (<[lit "endpoint_url" := VStr (strip_version_suffix u ++ lit "/v1")]> d)) ∧
  (∀ model texts user input_type,
     INSIGMAAITextEmbeddingModel._invoke TextEmbeddingResult embedding_invoke
       model l texts user input_type w
     = embedding_invoke model l' texts user input_type w') ∧
  (∀ model,
     INSIGMAAITextEmbeddingModel.validate_credentials embedding_validate
       model l w
     = embedding_validate model l' w') ∧
  (∀ model tenant_id content_text voice user,
     INSIGMAAITextToSpeechModel._invoke Audio tts_invoke
       model tenant_id l content_text voice user w
     = tts_invoke (strip model) tenant_id l' content_text voice user w') ∧
  (∀ model user,
     INSIGMAAITextToSpeechModel.validate_credentials tts_validate model l user w
     = tts_validate model l' w').
Proof.
  intros Hl Hu l' w'.
  assert (∀ f, f ∈ normalizers → on_dicts (F := F) (W := W) (f l) w = (Ok l', w'))
    as Hrun.
  { intros f Hf. rewrite (on_dicts_normalizer f w l d Hf Hl), Hu. reflexivity. }
  assert (TextEmbedding._get_compatible_credentials ∈ normalizers) as H1
    by apply list_elem_of_here.
  assert (TTS._standardize_endpoint_url ∈ normalizers) as H3
    by (do 2 apply list_elem_of_further; apply list_elem_of_here).
  split.
  { split; [by eapply fresh_ref_ne|]. unfold w', with_copy. cbn [dicts].
    split; [|apply lookup_insert_eq].
    rewrite lookup_insert_ne; [done|by eapply fresh_ref_ne]. }
  repeat split; intros;
    unfold INSIGMAAITextEmbeddingModel._invoke,
      INSIGMAAITextEmbeddingModel.validate_credentials,
      INSIGMAAITextToSpeechModel._invoke,
      INSIGMAAITextToSpeechModel.validate_credentials, mbind, Eff_bind;
    cbv zeta; by rewrite Hrun.
Qed.

Lemma world0_credentials : dicts Example.world0 !! 1%positive = Some Scenario.credentials.
Proof. unfold Example.world0, Scenario.store. cbn [dicts]. apply lookup_singleton_eq. Qed.

Lemma delegation_with_normalised_copy_witness :
  INSIGMAAITextToSpeechModel._invoke nat Example.tts_base
    (lit " tts-1 ") (lit "tenant") 1%positive (lit "hello") (lit "alloy") None
    Example.world0
  = Example.tts_base (strip (lit " tts-1 ")) (lit "tenant")
      (fresh (dom (dicts Example.world0))) (lit "hello") (lit "alloy") None
      (with_copy Example.world0
         (<[lit "endpoint_url" :=
              VStr (strip_version_suffix Run.endpoint ++ lit "/v1")]>
            Scenario.credentials)).
Proof.
  exact (proj1 (proj2 (proj2 (proj2
           (delegation_with_normalised_copy nat nat
              (λ _ _ _ _ _ w, (Ok 0, w)) Example.validate_base
              Example.tts_base Example.validate_base
              Example.world0 1%positive Scenario.credentials Run.endpoint
              world0_credentials run_endpoint))))
           (lit " tts-1 ") (lit "tenant") (lit "hello") (lit "alloy") None).
Defined.

(** X26: without [endpoint_url] the base implementation is never reached.
    Each of the four methods of the embedding and text-to-speech adapters
    raises [KeyError('endpoint_url')], whatever the inherited methods are,
    and leaves the world as it was except for the copy the normaliser had
    already made. *)
Theorem delegation_without_endpoint {F W : Type}
    (TextEmbeddingResult Audio : Type)
    (embedding_invoke :
       str → positive → list str → option str → EmbeddingInputType →
       Eff (world F W) TextEmbeddingResult)
    (embedding_validate : str → positive → Eff (world F W) unit)
    (tts_invoke :
       str → str → positive → str → str → option str → Eff (world F W) Audio)
    (tts_validate : str → positive → Eff (world F W) unit)
    (w : world F W) (l : positive) (d : gmap str value) :
  dicts w !! l = Some d →
  d !! lit "endpoint_url" = None →
  (∀ model texts user input_type,
     INSIGMAAITextEmbeddingModel._invoke TextEmbeddingResult embedding_invoke
       model l texts user input_type w
     = (Raise (KeyError_ (lit "endpoint_url")), with_copy w d)) ∧
  (∀ model,
     INSIGMAAITextEmbeddingModel.validate_credentials embedding_validate
       model l w
     = (Raise (KeyError_ (lit "endpoint_url")), with_copy w d)) ∧
  (∀ model tenant_id content_text voice user,
     INSIGMAAITextToSpeechModel._invoke Audio tts_invoke
       model tenant_id l content_text voice user w
     = (Raise (KeyError_ (lit "endpoint_url")), with_copy w d)) ∧
  (∀ model user,
     INSIGMAAITextToSpeechModel.validate_credentials tts_validate model l user w
     = (Raise (KeyError_ (lit "endpoint_url")), with_copy w d)).
Proof.
  intros Hl Hu.
  assert (∀ f, f ∈ normalizers →
            on_dicts (F := F) (W := W) (f l) w
            = (Raise (KeyError_ (lit "endpoint_url")), with_copy w d)) as Hrun.
  { intros f Hf. rewrite (on_dicts_normalizer f w l d Hf Hl), Hu. reflexivity. }
  assert (TextEmbedding._get_compatible_credentials ∈ normalizers) as H1
    by apply list_elem_of_here.
  assert (TTS._standardize_endpoint_url ∈ normalizers) as H3
    by (do 2 apply list_elem_of_further; apply list_elem_of_here).
  repeat split; intros;
    unfold INSIGMAAITextEmbeddingModel._invoke,
      INSIGMAAITextEmbeddingModel.validate_credentials,
      INSIGMAAITextToSpeechModel._invoke,
      INSIGMAAITextToSpeechModel.validate_credentials, mbind, Eff_bind;
    cbv zeta; by rewrite Hrun.
Qed.

Lemma world_without_endpoint_credentials :
  dicts Example.world_without_endpoint !! 1%positive = Some ∅.
Proof.
  unfold Example.world_without_endpoint. cbn [dicts]. apply lookup_singleton_eq.
Qed.

Lemma delegation_without_endpoint_witness :
  INSIGMAAITextToSpeechModel.validate_credentials Example.validate_base
    (lit "tts-1") 1%positive None Example.world_without_endpoint
  = (Raise (KeyError_ (lit "endpoint_url")),
     with_copy Example.world_without_endpoint ∅).
Proof.
  exact (proj2 (proj2 (proj2
           (delegation_without_endpoint nat nat
              (λ _ _ _ _ _ w, (Ok 0, w)) Example.validate_base
              Example.tts_base Example.validate_base
              Example.world_without_endpoint 1%positive ∅
              world_without_endpoint_credentials (lookup_empty _))))
           (lit "tts-1") None).
Defined.

Section Monad.
Context {S A B : Type}.

Lemma bind_ok (m : Eff S A) (k : A → Eff S B) s a s' :
  m s = (Ok a, s') → (m ≫= k) s = k a s'.
Proof. intros H. unfold mbind, Eff_bind. by rewrite H. Qed.

Lemma bind_raise (m : Eff S A) (k : A → Eff S B) s e s' :
  m s = (Raise e, s') → (m ≫= k) s = (Raise e, s').
Proof. intros H. unfold mbind, Eff_bind. by rewrite H. Qed.

End Monad.

Section SpeechToText.
Context {F W : Type}.
Context (type_name : F → str) (seek_outcome : F → Z → result unit)
        (super_invoke : str → positive → F → Eff (world F W) str)
        (super_validate_credentials : str → positive → Eff (world F W) unit).
Implicit Types (w : world F W) (l : positive) (d : gmap str value).

Lemma on_dicts_getitem_copy w d' :
  on_dicts (dict_getitem (fresh (dom (dicts w))) (lit "endpoint_url"))
    (with_copy w d')
  = (getitem d' (lit "endpoint_url"), with_copy w d').
Proof.
  unfold on_dicts, dict_getitem, with_copy. cbn [dicts calls outside].
  by rewrite lookup_insert_eq.
Qed.

(** The [try] block of the speech-to-text [_invoke], from a world [w] in
    which the start record has been logged. *)
Lemma stt_invoke_unfold model l file user w :
  INSIGMAAISpeechToTextModel._invoke type_name seek_outcome super_invoke
    model l file user w
  = try_reraise
      (INSIGMAAISpeechToTextModel.seek seek_outcome file 0;;
       compatible_credentials ←
         on_dicts (Speech2Text._standardize_endpoint_url l);
       endpoint ←
         on_dicts (dict_getitem compatible_credentials (lit "endpoint_url"));
       logger_call DEBUG
         (lit "[Speech2Text._invoke] 使用标准化 endpoint: " ++ format endpoint)
         false;;
       result ← super_invoke (strip model) compatible_credentials file;
       logger_call INFO
         (lit "[Speech2Text._invoke] 模型调用成功，返回文本长度: "
          ++ str_of_int (Z.of_nat (length result))) false;;
       mret result)
      (λ e,
         logger_call ERROR
           (lit "[Speech2Text._invoke] 模型调用失败，模型: " ++ strip model
            ++ lit ", 错误: " ++ exc_str e) true)
      (with_log w INFO
         (lit "[Speech2Text._invoke] 开始调用模型: " ++ strip model
          ++ lit ", 用户: "
          ++ INSIGMAAISpeechToTextModel.user_or_unknown user
          ++ lit ", 文件对象类型: " ++ type_name file) false).
Proof. reflexivity. Qed.

Lemma fresh_with_seek_log w lv msg exc file offset :
  fresh (dom (dicts (with_seek (with_log w lv msg exc) file offset)))
  = fresh (dom (dicts w)).
Proof. reflexivity. Qed.

(** With a string endpoint and a file that can be rewound, the outcome is
    that of the base implementation, followed by one record. *)
Lemma stt_invoke_base model l file user w d u :
  dicts w !! l = Some d →
  d !! lit "endpoint_url" = Some (VStr u) →
  seek_outcome file 0 = Ok () →
  INSIGMAAISpeechToTextModel._invoke type_name seek_outcome super_invoke
    model l file user w
  = match
      super_invoke (strip model) (fresh (dom (dicts w))) file
        (World
           (<[fresh (dom (dicts w)) :=
                <[lit "endpoint_url" :=
                    VStr (strip_version_suffix u ++ lit "/v1")]> d]> (dicts w))
           (calls w ++
            [Log {| level := INFO;
                    message :=
                      lit "[Speech2Text._invoke] 开始调用模型: " ++ strip model
                      ++ lit ", 用户: "
                      ++ INSIGMAAISpeechToTextModel.user_or_unknown user
                      ++ lit ", 文件对象类型: " ++ type_name file;
                    exc_info := false |};
             Seek file 0;
             Log {| level := DEBUG;
                    message :=
                      lit "[Speech2Text._invoke] 使用标准化 endpoint: "
                      ++ (strip_version_suffix u ++ lit "/v1");
                    exc_info := false |}])
           (outside w))
    with
    | (Ok text, w5) =>
      (Ok text,
       with_log w5 INFO
         (lit "[Speech2Text._invoke] 模型调用成功，返回文本长度: "
          ++ str_of_int (Z.of_nat (length text))) false)
    | (Raise e, w5) =>
      (Raise e,
       with_log w5 ERROR
         (lit "[Speech2Text._invoke] 模型调用失败，模型: " ++ strip model
          ++ lit ", 错误: " ++ exc_str e) true)
    end.
Proof.
  intros Hl Hu Hseek.
  assert (Speech2Text._standardize_endpoint_url ∈ normalizers) as Hf
    by (apply list_elem_of_further, list_elem_of_here).
  rewrite stt_invoke_unfold. unfold try_reraise.
  match goal with
  | |- context [with_log w INFO ?m false] => set (w1 := with_log w INFO m false)
  end.
  erewrite bind_ok;
    [|unfold INSIGMAAISpeechToTextModel.seek; rewrite Hseek; reflexivity].
  fold (with_seek w1 file 0).
  erewrite bind_ok;
    [|rewrite (on_dicts_normalizer _ (with_seek w1 file 0) l d Hf Hl), Hu;
      reflexivity].
  erewrite bind_ok;
    [|rewrite on_dicts_getitem_copy; unfold getitem;
      rewrite lookup_insert_eq; reflexivity].
  erewrite bind_ok; [|reflexivity].
  cbn [format].
  match goal with
  | |- context [super_invoke _ _ _ ?w4] => set (w4' := w4)
  end.
  match goal with
  | |- (let (_, _) := (_ ≫= _) ?x in _) = _ => set (wx := x)
  end.
  assert (wx = w4') as ->.
  { unfold wx, w4', w1, with_log, with_copy, with_seek.
    cbn [dicts calls outside]. by rewrite <- !app_assoc. }
  change (fresh (dom (dicts (with_seek w1 file 0)))) with (fresh (dom (dicts w))).
  unfold mbind at 1. unfold Eff_bind at 1.
  destruct (super_invoke (strip model) (fresh (dom (dicts w))) file w4')
    as [[text|e] w5]; reflexivity.
Qed.

(** X27: a successful transcription.  With a string [endpoint_url] and a
    file that can be rewound, the base implementation is called with the
    trimmed model and the normalised copy, in a world where the adapter
    has logged its start record, called [file.seek(0)] and logged the
    endpoint, in that order, and where the caller's mapping is unchanged.
    When the base implementation returns a text, [_invoke] returns that
    text and its last act is one INFO record with the length of the
    text. *)
Theorem stt_invoke_success model l file user w d u text w5 :
  dicts w !! l = Some d →
  d !! lit "endpoint_url" = Some (VStr u) →
  seek_outcome file 0 = Ok () →
  let start :=
    {| level := INFO;
       message :=
         lit "[Speech2Text._invoke] 开始调用模型: " ++ strip model
         ++ lit ", 用户: " ++ INSIGMAAISpeechToTextModel.user_or_unknown user
         ++ lit ", 文件对象类型: " ++ type_name file;
       exc_info := false |} in
  let debug :=
    {| level := DEBUG;
       message :=
         lit "[Speech2Text._invoke] 使用标准化 endpoint: "
         ++ (strip_version_suffix u ++ lit "/v1");
       exc_info := false |} in
  let l' := fresh (dom (dicts w)) in
  let d' :=
    <[lit "endpoint_url" := VStr (strip_version_suffix u ++ lit "/v1")]> d in
  let w4 :=
    World (<[l' := d']> (dicts w))
      (calls w ++ [Log start; Seek file 0; Log debug]) (outside w) in
  super_invoke (strip model) l' file w4 = (Ok text, w5) →
  INSIGMAAISpeechToTextModel._invoke type_name seek_outcome super_invoke
    model l file user w
  = (Ok text,
     with_log w5 INFO
       (lit "[Speech2Text._invoke] 模型调用成功，返回文本长度: "
        ++ str_of_int (Z.of_nat (length text))) false) ∧
  l' ≠ l ∧ dicts w4 !! l = Some d ∧ dicts w4 !! l' = Some d'.
Proof.
  intros Hl Hu Hseek start debug l' d' w4 Hsuper.
  split.
  - rewrite (stt_invoke_base model l file user w d u Hl Hu Hseek).
    fold start debug l' d' w4. by rewrite Hsuper.
  - split; [by eapply fresh_ref_ne|]. unfold w4. cbn [dicts].
    split; [|apply lookup_insert_eq].
    rewrite lookup_insert_ne; [done|by eapply fresh_ref_ne].
Qed.

(** X28: a failed transcription.  Whatever raises inside the [try] block,
    [_invoke] raises the very same exception, after one ERROR record with
    the trimmed model, the message of the exception and the traceback
    flag: when [file.seek(0)] raises, nothing else has happened; when
    [endpoint_url] is missing, the [KeyError] comes after the copy was
    made; in both cases the base implementation is not reached.  When the
    base implementation raises, its exception and its world are passed
    on. *)
Theorem stt_invoke_failure model l file user w d :
  dicts w !! l = Some d →
  let start :=
    {| level := INFO;
       message :=
         lit "[Speech2Text._invoke] 开始调用模型: " ++ strip model
         ++ lit ", 用户: " ++ INSIGMAAISpeechToTextModel.user_or_unknown user
         ++ lit ", 文件对象类型: " ++ type_name file;
       exc_info := false |} in
  let failed (e : exception) :=
    {| level := ERROR;
       message :=
         lit "[Speech2Text._invoke] 模型调用失败，模型: " ++ strip model
         ++ lit ", 错误: " ++ exc_str e;
       exc_info := true |} in
  let outcome :=
    INSIGMAAISpeechToTextModel._invoke type_name seek_outcome super_invoke
      model l file user w in
  (∀ e, seek_outcome file 0 = Raise e →
     outcome
     = (Raise e,
        World (dicts w)
          (calls w ++ [Log start; Seek file 0; Log (failed e)]) (outside w))) ∧
  (seek_outcome file 0 = Ok () → d !! lit "endpoint_url" = None →
   outcome
   = (Raise (KeyError_ (lit "endpoint_url")),
      World (<[fresh (dom (dicts w)) := d]> (dicts w))
        (calls w ++ [Log start; Seek file 0;
                     Log (failed (KeyError_ (lit "endpoint_url")))])
        (outside w))) ∧
  (∀ u e w5,
     seek_outcome file 0 = Ok () →
     d !! lit "endpoint_url" = Some (VStr u) →
     super_invoke (strip model) (fresh (dom (dicts w))) file
       (World
          (<[fresh (dom (dicts w)) :=
               <[lit "endpoint_url" :=
                   VStr (strip_version_suffix u ++ lit "/v1")]> d]> (dicts w))
          (calls w ++
           [Log start; Seek file 0;
            Log {| level := DEBUG;
                   message :=
                     lit "[Speech2Text._invoke] 使用标准化 endpoint: "
                     ++ (strip_version_suffix u ++ lit "/v1");
                   exc_info := false |}])
          (outside w))
     = (Raise e, w5) →
     outcome
     = (Raise e,
        World (dicts w5) (calls w5 ++ [Log (failed e)]) (outside w5))).
Proof.
  intros Hl start failed outcome. subst outcome.
  assert (Speech2Text._standardize_endpoint_url ∈ normalizers) as Hf
    by (apply list_elem_of_further, list_elem_of_here).
  split; [|split].
  - intros e Hseek. rewrite stt_invoke_unfold. unfold try_reraise.
    erewrite bind_raise;
      [|unfold INSIGMAAISpeechToTextModel.seek; rewrite Hseek; reflexivity].
    unfold logger_call, with_log. cbn [dicts calls outside].
    by rewrite <- !app_assoc.
  - intros Hseek Hu. rewrite stt_invoke_unfold. unfold try_reraise.
    match goal with
    | |- context [with_log w INFO ?m false] =>
      set (w1 := with_log w INFO m false)
    end.
    erewrite bind_ok;
      [|unfold INSIGMAAISpeechToTextModel.seek; rewrite Hseek; reflexivity].
    fold (with_seek w1 file 0).
    erewrite bind_raise;
      [|rewrite (on_dicts_normalizer _ (with_seek w1 file 0) l d Hf Hl), Hu;
        reflexivity].
    unfold logger_call, with_copy, with_seek, w1, with_log.
    cbn [dicts calls outside]. by rewrite <- !app_assoc.
  - intros u e w5 Hseek Hu Hsuper.
    rewrite (stt_invoke_base model l file user w d u Hl Hu Hseek).
    fold start. by rewrite Hsuper.
Qed.

Lemma stt_validate_unfold model l w :
  INSIGMAAISpeechToTextModel.validate_credentials super_validate_credentials
    model l w
  = try_reraise
      (compatible_credentials ←
         on_dicts (Speech2Text._standardize_endpoint_url l);
       endpoint ←
         on_dicts (dict_getitem compatible_credentials (lit "endpoint_url"));
       logger_call DEBUG
         (lit "[Speech2Text.validate_credentials] 标准化 endpoint: "
          ++ format endpoint) false;;
       super_validate_credentials model compatible_credentials;;
       logger_call INFO
         (lit "[Speech2Text.validate_credentials] 凭证验证成功: " ++ model) false)
      (λ e,
         logger_call ERROR
           (lit "[Speech2Text.validate_credentials] 凭证验证失败，模型: " ++ model
            ++ lit ", 错误: " ++ exc_str e) true)
      (with_log w INFO
         (lit "[Speech2Text.validate_credentials] 开始验证凭证，模型: " ++ model)
         false).
Proof. reflexivity. Qed.

(** X29: the credential check of the speech-to-text adapter.  It logs its
    start record with the model as given (not trimmed); with a string
    [endpoint_url] it calls the base check with that model and the
    normalised copy, and then either returns after one INFO record or
    raises the exception of the base check unchanged after one ERROR
    record with the traceback flag; without [endpoint_url] it raises
    [KeyError('endpoint_url')] after the ERROR record and the base check is
    not reached. *)
Theorem stt_validate_credentials model l w d :
  dicts w !! l = Some d →
  let start :=
    {| level := INFO;
       message :=
         lit "[Speech2Text.validate_credentials] 开始验证凭证，模型: " ++ model;
       exc_info := false |} in
  let failed (e : exception) :=
    {| level := ERROR;
       message :=
         lit "[Speech2Text.validate_credentials] 凭证验证失败，模型: " ++ model
         ++ lit ", 错误: " ++ exc_str e;
       exc_info := true |} in
  let outcome :=
    INSIGMAAISpeechToTextModel.validate_credentials super_validate_credentials
      model l w in
  (∀ u,
     d !! lit "endpoint_url" = Some (VStr u) →
     outcome
     = match
         super_validate_credentials model (fresh (dom (dicts w)))
           (World
              (<[fresh (dom (dicts w)) :=
                   <[lit "endpoint_url" :=
                       VStr (strip_version_suffix u ++ lit "/v1")]> d]>
                 (dicts w))
              (calls w ++
               [Log start;
                Log {| level := DEBUG;
                       message :=
                         lit "[Speech2Text.validate_credentials] 标准化 endpoint: "
                         ++ (strip_version_suffix u ++ lit "/v1");
                       exc_info := false |}])
              (outside w))
       with
       | (Ok _, w4) =>
         (Ok (),
          with_log w4 INFO
            (lit "[Speech2Text.validate_credentials] 凭证验证成功: " ++ model)
            false)
       | (Raise e, w4) =>
         (Raise e,
          World (dicts w4) (calls w4 ++ [Log (failed e)]) (outside w4))
       end) ∧
  (d !! lit "endpoint_url" = None →
   outcome
   = (Raise (KeyError_ (lit "endpoint_url")),
      World (<[fresh (dom (dicts w)) := d]> (dicts w))
        (calls w ++ [Log start; Log (failed (KeyError_ (lit "endpoint_url")))])
        (outside w))).
Proof.
  intros Hl start failed outcome. subst outcome.
  assert (Speech2Text._standardize_endpoint_url ∈ normalizers) as Hf
    by (apply list_elem_of_further, list_elem_of_here).
  rewrite stt_validate_unfold. unfold try_reraise.
  match goal with
  | |- context [with_log w INFO ?m false] => set (w1 := with_log w INFO m false)
  end.
  split.
  - intros u Hu.
    erewrite bind_ok;
      [|rewrite (on_dicts_normalizer _ w1 l d Hf Hl), Hu; reflexivity].
    erewrite bind_ok;
      [|rewrite on_dicts_getitem_copy; unfold getitem;
        rewrite lookup_insert_eq; reflexivity].
    erewrite bind_ok; [|reflexivity].
    cbn [format].
    match goal with
    | |- (let (_, _) := (_ ≫= _) ?x in _) = _ => set (wx := x)
    end.
    match goal with
    | |- _ = match super_validate_credentials _ _ ?x with _ => _ end =>
      set (w3 := x)
    end.
    assert (wx = w3) as ->.
    { unfold wx, w3, w1, with_log, with_copy.
      cbn [dicts calls outside]. by rewrite <- !app_assoc. }
    change (fresh (dom (dicts w1))) with (fresh (dom (dicts w))).
    unfold mbind at 1. unfold Eff_bind at 1.
    destruct (super_validate_credentials model (fresh (dom (dicts w))) w3)
      as [[[]|e] w4]; reflexivity.
  - intros Hu.
    erewrite bind_raise;
      [|rewrite (on_dicts_normalizer _ w1 l d Hf Hl), Hu; reflexivity].
    unfold logger_call, with_copy, w1, with_log.
    cbn [dicts calls outside]. by rewrite <- !app_assoc.
Qed.

End SpeechToText.

Lemma stt_invoke_success_witness :
  ∃ w5,
    INSIGMAAISpeechToTextModel._invoke Example.type_name Example.seek_ok
      Example.stt_base (lit " whisper-1 ") 1%positive 7 (Some (lit "alice"))
      Example.world0
    = (Ok (lit "hello"),
       with_log w5 INFO
         (lit "[Speech2Text._invoke] 模型调用成功，返回文本长度: "
          ++ str_of_int (Z.of_nat (length (lit "hello")))) false).
Proof.
  eexists.
  refine (proj1 (stt_invoke_success Example.type_name Example.seek_ok
                   Example.stt_base (lit " whisper-1 ") 1%positive 7
                   (Some (lit "alice")) Example.world0 Scenario.credentials
                   Run.endpoint (lit "hello") _
                   world0_credentials run_endpoint eq_refl _)).
  reflexivity.
Defined.

Lemma stt_invoke_failure_witness :
  INSIGMAAISpeechToTextModel._invoke Example.type_name Example.seek_closed
    Example.stt_base (lit " whisper-1 ") 1%positive 7 None Example.world0
  = (Raise (Exc ValueError (lit "I/O operation on closed file.")),
     World (dicts Example.world0)
       (calls Example.world0 ++
        [Log {| level := INFO;
                message :=
                  lit "[Speech2Text._invoke] 开始调用模型: "
                  ++ strip (lit " whisper-1 ") ++ lit ", 用户: "
                  ++ INSIGMAAISpeechToTextModel.user_or_unknown None
                  ++ lit ", 文件对象类型: " ++ Example.type_name 7;
                exc_info := false |};
         Seek 7 0;
         Log {| level := ERROR;
                message :=
                  lit "[Speech2Text._invoke] 模型调用失败，模型: "
                  ++ strip (lit " whisper-1 ") ++ lit ", 错误: "
                  ++ exc_str (Exc ValueError
                                (lit "I/O operation on closed file."));
                exc_info := true |}])
       (outside Example.world0)).
Proof.
  exact (proj1 (stt_invoke_failure Example.type_name Example.seek_closed
                  Example.stt_base (lit " whisper-1 ") 1%positive 7 None
                  Example.world0 Scenario.credentials world0_credentials)
           (Exc ValueError (lit "I/O operation on closed file.")) eq_refl).
Defined.

Lemma stt_validate_credentials_witness :
  INSIGMAAISpeechToTextModel.validate_credentials Example.validate_base
    (lit " whisper-1 ") 1%positive Example.world_without_endpoint
  = (Raise (KeyError_ (lit "endpoint_url")),
     World (<[fresh (dom (dicts Example.world_without_endpoint)) := ∅]>
              (dicts Example.world_without_endpoint))
       (calls Example.world_without_endpoint ++
        [Log {| level := INFO;
                message :=
                  lit "[Speech2Text.validate_credentials] 开始验证凭证，模型: "
                  ++ lit " whisper-1 ";
                exc_info := false |};
         Log {| level := ERROR;
                message :=
                  lit "[Speech2Text.validate_credentials] 凭证验证失败，模型: "
                  ++ lit " whisper-1 " ++ lit ", 错误: "
                  ++ exc_str (KeyError_ (lit "endpoint_url"));
                exc_info := true |}])
       (outside Example.world_without_endpoint)).
Proof.
  exact (proj2 (stt_validate_credentials Example.validate_base
                  (lit " whisper-1 ") 1%positive
                  Example.world_without_endpoint ∅
                  world_without_endpoint_credentials)
           (lookup_empty _)).
Defined.

(** A transcription computed: the caller passes no user, the file is
    rewound, the base implementation answers "hello". *)
Example scenario_transcription :
  (INSIGMAAISpeechToTextModel._invoke Example.type_name Example.seek_ok
     Example.stt_base (lit " whisper-1 ") 1%positive 7 (Some [])
     Example.world0).1 = Ok (lit "hello") ∧
  calls (INSIGMAAISpeechToTextModel._invoke Example.type_name Example.seek_ok
           Example.stt_base (lit " whisper-1 ") 1%positive 7 (Some [])
           Example.world0).2
  = [Log {| level := INFO;
            message :=
              lit "[Speech2Text._invoke] 开始调用模型: whisper-1, 用户: unknown, 文件对象类型: BytesIO";
            exc_info := false |};
     Seek 7 0;
     Log {| level := DEBUG;
            message :=
              lit "[Speech2Text._invoke] 使用标准化 endpoint: https://api.example.com/v1";
            exc_info := false |};
     Log {| level := INFO;
            message := lit "[Speech2Text._invoke] 模型调用成功，返回文本长度: 5";
            exc_info := false |}].
Proof. split; vm_compute; reflexivity. Qed.
